(** * gmail_agent/email_filter.py: categorisation and fetch loops

    A shallow embedding of [categorize_email] and [filter_emails] of
    [src/gmail_agent/email_filter.py].

    The two coroutines talk to three collaborators that are not part of the
    repository: the MCP transport and session, the model backend and the
    [json] module.  Their behaviour is a parameter ([World], [json_loads]);
    what the coroutines do with them is written out statement by statement
    in a small monad with a store of list objects, a trace of the
    collaborator operations performed, and Python's three ways of leaving a
    block (falling through, [return], raising).

    Conventions.
    - A [logging] call whose arguments cannot raise is left out.  Line 31
      is kept: it serialises the payload with [json.dumps].
    - Constructors of the collaborating libraries ([GenerativeModel],
      [HttpServerParameters], [StdioServerParameters], [http_client],
      [stdio_client], [GenerationConfig]) build a value and do nothing
      else.  The checks two of them make on their arguments are outside
      the embedding: the one of [StdioServerParameters] on [env], which
      wants [SERP_API_KEY] set at lines 40-44, and the one of
      [types.Tool] on a schema at lines 72-87.
    - [json.loads] returns a document or raises [JSONDecodeError]; the
      [ValueError] of an over-long integer literal and [RecursionError]
      are outside the embedding.
    - What a collaborator raises derives from [Exception].  An interrupt
      is met at [input] only; the cancellation of a task is outside the
      embedding.
    - Leaving an [async with] block releases its manager; the release does
      not fail and does not swallow an exception. *)

From Stdlib Require Import String Ascii List ZArith Bool Lia.
Import ListNotations.
Open Scope string_scope.
Open Scope list_scope.

Set Implicit Arguments.
Set Warnings "-register-all".

(** ** Values *)

(** What [json.loads] produces and what the literal dicts of the source
    are made of.  A dict is kept as its items in insertion order. *)
Inductive Json :=
| JNull
| JBool (b : bool)
| JNum (n : Z)
| JStr (s : string)
| JArr (items : list Json)
| JObj (fields : list (string * Json)).

(** The exception classes the source distinguishes.  All of them derive
    from [Exception]. *)
Inductive Exn :=
| NameError (name : string)
| TypeError
| JSONDecodeError
| IndexError
| AttributeError
| GoogleAPIError
| OtherException (msg : string).

Definition is_JSONDecodeError (e : Exn) : bool :=
  match e with JSONDecodeError => true | _ => false end.

Definition is_IndexError_or_AttributeError (e : Exn) : bool :=
  match e with IndexError | AttributeError => true | _ => false end.

(** [except Exception] and [except (GoogleAPIError, Exception)]. *)
Definition is_Exception (e : Exn) : bool := true.

(** An attribute of a duck-typed object: absent, or present with a value. *)
Inductive Attr (A : Type) :=
| Missing
| Present (a : A).
Arguments Missing {A}.

(** *** Conversation *)

Record FunctionCall := mkFunctionCall {
  fc_name : string;
  fc_args : list (string * Json)
}.

(** The object found at [response.candidates[0].content.parts[0]]. *)
Record ModelPart := mkModelPart {
  function_call : option FunctionCall;
  mp_text : option string
}.

(** A part of a turn: the dict [{"text": s}] the source builds itself, or
    the backend's part object stored as it came. *)
Inductive Part :=
| TextPart (text : string)
| RawPart (p : ModelPart).

Inductive Role := User | Model.

Record Turn := mkTurn {
  role : Role;
  parts : list Part
}.

Record Candidate := mkCandidate { content_parts : list ModelPart }.

Record Response := mkResponse {
  candidates : list Candidate;
  response_text : option string
}.

(** *** Tools *)

Record Tool := mkTool {
  name : string;
  description : string;
  inputSchema : list (string * Json)
}.

Record FunctionDeclaration := mkDecl {
  decl_name : string;
  decl_description : string;
  decl_parameters : list (string * Json)
}.

(** [types.Tool(function_declarations=[...])]. *)
Record GeminiTool := mkGeminiTool {
  function_declarations : list FunctionDeclaration
}.

Record ContentPart := mkContentPart {
  cp_text : Attr (option string);
  cp_tool_code : Attr (option string);
  cp_str : string
}.

Record ToolResult := mkToolResult { content : list ContentPart }.

(** *** Transports *)

Record HttpServerParameters := mkHttp { base_url : string }.

Record StdioServerParameters := mkStdio {
  command : string;
  args : list string;
  env : option (list (string * option string))
}.

(** The value of [mcp_client_context]. *)
Inductive ClientContext :=
| http_client (p : HttpServerParameters)
| stdio_client (p : StdioServerParameters).

(** Module level configuration: [MCP_SERVER_BASE_URL] is read once at
    import, the other variables at each call through [os.getenv]. *)
Record Config := mkConfig {
  MCP_SERVER_BASE_URL : string;
  getenv : string -> option string
}.

Definition getenv_default (cfg : Config) (key default : string) : string :=
  match getenv cfg key with
  | Some v => v
  | None => default
  end.

(** ** Collaborators *)

Inductive Outcome (A : Type) :=
| Ok (a : A)
| Fails (e : Exn).
Arguments Fails {A}.

Definition succeeded {A} (o : Outcome A) : bool :=
  match o with Ok _ => true | Fails _ => false end.

(** One call's worth of collaborator behaviour.  Every operation is used
    at most once per call of either coroutine, so an answer per operation
    covers every behaviour. *)
Record World := mkWorld {
  transport_enter : ClientContext -> Outcome unit;
  session_enter : Outcome unit;
  initialize : Outcome unit;
  list_tools : Outcome (list Tool);
  generate_content : list Turn -> Z -> list GeminiTool -> Outcome Response;
  call_tool : string -> list (string * Json) -> Outcome ToolResult
}.

(** What a run did to its collaborators, in order. *)
Inductive Event :=
| EvClient (c : ClientContext)
| EvTransportEnter (ok : bool)
| EvSessionEnter (ok : bool)
| EvInitialize (ok : bool)
| EvListTools (ok : bool)
| EvGenerateContent (contents : list Turn) (tools : list GeminiTool) (ok : bool)
| EvCallTool (tool : string) (arguments : list (string * Json)) (ok : bool)
| EvSessionExit
| EvTransportExit.

Definition is_client (e : Event) : bool :=
  match e with EvClient _ => true | _ => false end.

Definition is_http_client (e : Event) : bool :=
  match e with EvClient (http_client _) => true | _ => false end.

Definition is_stdio_client (e : Event) : bool :=
  match e with EvClient (stdio_client _) => true | _ => false end.

Definition is_generate_content (e : Event) : bool :=
  match e with EvGenerateContent _ _ _ => true | _ => false end.

Definition is_call_tool (e : Event) : bool :=
  match e with EvCallTool _ _ _ => true | _ => false end.

(** ** The statement monad *)

Definition loc := nat.

(** The store holds the list objects of conversation histories; a history
    variable is a reference into it. *)
Record State := mkState {
  heap : list (list Turn);
  trace : list Event
}.

Inductive Completion (R A : Type) :=
| Normal (a : A)
| Return (r : R)
| Raise (e : Exn).
Arguments Normal {R A}.
Arguments Return {R A}.
Arguments Raise {R A}.

Definition M (R A : Type) := State -> State * Completion R A.

Definition ret {R A} (a : A) : M R A := fun s => (s, Normal a).

Definition bind {R A B} (m : M R A) (k : A -> M R B) : M R B :=
  fun s =>
    match m s with
    | (s1, Normal a) => k a s1
    | (s1, Return r) => (s1, Return r)
    | (s1, Raise e) => (s1, Raise e)
    end.

Definition return_ {R A} (r : R) : M R A := fun s => (s, Return r).

Definition raise {R A} (e : Exn) : M R A := fun s => (s, Raise e).

Declare Scope py_scope.
Delimit Scope py_scope with py.
Notation "x <- c1 ;; c2" := (bind c1 (fun x => c2))
  (at level 100, c1 at next level, right associativity) : py_scope.
Notation "c1 ;; c2" := (bind c1 (fun _ => c2))
  (at level 100, right associativity) : py_scope.
Open Scope py_scope.

Definition emit {R} (e : Event) : M R unit :=
  fun s => (mkState (heap s) (trace s ++ [e]), Normal tt).

(** Awaiting a collaborator: the attempt is recorded, then its answer is
    the value of the expression or the exception raised there. *)
Definition await {R A} (o : Outcome A) (ev : bool -> Event) : M R A :=
  emit (ev (succeeded o)) ;;
  match o with
  | Ok a => ret a
  | Fails e => raise e
  end.

(** [try: body except C1: h1 except C2: h2 ...]: the first clause whose
    class matches handles the exception; [return] passes through. *)
Fixpoint select_clause {R A} (clauses : list ((Exn -> bool) * (Exn -> M R A)))
    (e : Exn) : M R A :=
  match clauses with
  | [] => raise e
  | (matches, handler) :: rest =>
      if matches e then handler e else select_clause rest e
  end.

Definition try_except {R A} (body : M R A)
    (clauses : list ((Exn -> bool) * (Exn -> M R A))) : M R A :=
  fun s =>
    match body s with
    | (s1, Raise e) => select_clause clauses e s1
    | other => other
    end.

(** [async with mgr as x: body]: when entering fails nothing is released;
    once entered, the manager is released however the body is left, and
    the body's completion goes on unchanged. *)
Definition async_with {R A B} (enter : M R B) (released : Event)
    (body : B -> M R A) : M R A :=
  fun s =>
    match enter s with
    | (s1, Normal b) =>
        let '(s2, c) := body b s1 in
        (mkState (heap s2) (trace s2 ++ [released]), c)
    | (s1, Return r) => (s1, Return r)
    | (s1, Raise e) => (s1, Raise e)
    end.

(** *** List objects *)

Definition new_list {R} (l : list Turn) : M R loc :=
  fun s => (mkState (heap s ++ [l]) (trace s), Normal (length (heap s))).

Definition deref (h : list (list Turn)) (r : loc) : list Turn := nth r h [].

Definition contents {R} (r : loc) : M R (list Turn) :=
  fun s => (s, Normal (deref (heap s) r)).

(** [x or []] for [x] a list or [None]. *)
Definition or_empty {R} (x : option loc) : M R loc :=
  match x with
  | None => new_list []
  | Some r =>
      l <- contents r ;;
      match l with
      | [] => new_list []
      | _ :: _ => ret r
      end
  end.

(** [list(x)]. *)
Definition py_list {R} (r : loc) : M R loc :=
  l <- contents r ;; new_list l.

(** [a + b] on lists. *)
Definition py_add {R} (a b : loc) : M R loc :=
  la <- contents a ;; lb <- contents b ;; new_list (la ++ lb).

(** *** Results of a call *)

Inductive PyResult (R : Type) :=
| Returns (r : R)
| ReturnsNone
| Raises (e : Exn).
Arguments ReturnsNone {R}.
Arguments Raises {R}.

Definition call {R} (body : M R unit) (s : State) : State * PyResult R :=
  match body s with
  | (s1, Normal _) => (s1, ReturnsNone)
  | (s1, Return r) => (s1, Returns r)
  | (s1, Raise e) => (s1, Raises e)
  end.

(** ** The program *)

Section Program.

(** The configuration the module was imported under, the collaborators of
    this call, and [json.loads] on text ([None]: [JSONDecodeError]). *)
Variable cfg : Config.
Variable w : World.
Variable json_loads : string -> option Json.

(** *** Helpers standing for Python expressions *)

Definition truthy (v : option string) : bool :=
  match v with
  | None | Some "" => false
  | Some _ => true
  end.

(** [json.loads(v)]: anything but text is a [TypeError]. *)
Definition py_json_loads {R} (v : option string) : M R Json :=
  match v with
  | None => raise TypeError
  | Some s =>
      match json_loads s with
      | Some j => ret j
      | None => raise JSONDecodeError
      end
  end.

Definition getattr {R A} (a : Attr A) : M R A :=
  match a with
  | Present v => ret v
  | Missing => raise AttributeError
  end.

(** [l[0]]. *)
Definition index0 {R A} (l : list A) : M R A :=
  match l with
  | x :: _ => ret x
  | [] => raise IndexError
  end.

(** [json.dumps] accepts dicts, lists and text; a backend part object is
    none of them. *)
Definition json_serializable_part (p : Part) : bool :=
  match p with
  | TextPart _ => true
  | RawPart _ => false
  end.

Definition json_serializable (l : list Turn) : bool :=
  forallb (fun t => forallb json_serializable_part (parts t)) l.

Definition json_dumps {R} (r : loc) : M R unit :=
  l <- contents r ;;
  if json_serializable l then ret tt else raise TypeError.

(** The comprehension of lines 55-70 and 72-87. *)
Definition schema_metadata : list string := ["additionalProperties"; "$schema"].

Definition declare_tool (tool : Tool) : GeminiTool :=
  mkGeminiTool
    [ mkDecl (name tool) (description tool)
        (filter (fun kv => negb (existsb (String.eqb (fst kv)) schema_metadata))
                (inputSchema tool)) ].

(** *** Names *)

(** The objects a name of [categorize_email] can be bound to, as far as
    line 69 tells them apart: the answer of [list_tools], or anything else. *)
Inductive PyObj :=
| ObjListTools (tools : list Tool)
| ObjOther.

Definition module_globals : list string :=
  [ "asyncio"; "os"; "json"; "base64"; "logging"; "load_dotenv"; "genai";
    "google_exceptions"; "types"; "ClientSession"; "StdioServerParameters";
    "stdio_client"; "HttpServerParameters"; "http_client"; "GEMINI_API_KEY";
    "MCP_SERVER_BASE_URL"; "categorize_email"; "filter_emails"; "main" ].

(** The local names that can be bound when control reaches line 55. *)
Definition categorize_email_locals : list string :=
  [ "email_body"; "history"; "gen_client"; "current_history";
    "user_prompt_part"; "contents_payload"; "server_params_transport";
    "server_params_stdio"; "mcp_client_context"; "read"; "write"; "session" ].

Definition scope_at_line_55 (mcp_tools_response : list Tool)
    : list (string * PyObj) :=
  ("mcp_tools_response", ObjListTools mcp_tools_response)
    :: map (fun n => (n, ObjOther)) (categorize_email_locals ++ module_globals).

Fixpoint lookup_name (scope : list (string * PyObj)) (n : string)
    : option PyObj :=
  match scope with
  | [] => None
  | (k, v) :: rest => if String.eqb k n then Some v else lookup_name rest n
  end.

(** Reading a name: local, then global; an unbound one is a [NameError]. *)
Definition load_name {R} (scope : list (string * PyObj)) (n : string)
    : M R PyObj :=
  match lookup_name scope n with
  | Some o => ret o
  | None => raise (NameError n)
  end.

(** [o.tools]. *)
Definition getattr_tools {R} (o : PyObj) : M R (list Tool) :=
  match o with
  | ObjListTools ts => ret ts
  | ObjOther => raise AttributeError
  end.

(** *** Transport selection *)

(** [X and X.startswith("http")]. *)
Definition use_http : bool :=
  negb (String.eqb (MCP_SERVER_BASE_URL cfg) "")
  && String.prefix "http" (MCP_SERVER_BASE_URL cfg).

(** Lines 34-45. *)
Definition categorize_client_context : ClientContext :=
  if use_http then
    http_client (mkHttp (MCP_SERVER_BASE_URL cfg))
  else
    stdio_client
      (mkStdio (getenv_default cfg "MCP_STDIO_COMMAND" "mcp-flight-search")
               ["--connection_type"; "stdio"]
               (Some [("SERP_API_KEY", getenv cfg "SERP_API_KEY")])).

(** Lines 143-153. *)
Definition filter_client_context : ClientContext :=
  if use_http then
    http_client (mkHttp (MCP_SERVER_BASE_URL cfg))
  else
    stdio_client
      (mkStdio (getenv_default cfg "MCP_STDIO_GMAIL_COMMAND" "mcp-gmail-tool")
               ["--connection_type"; "stdio"]
               None).

(** Building the context manager opens nothing; it is recorded so that a
    run shows which client was built. *)
Definition build_client {R} (c : ClientContext) : M R ClientContext :=
  emit (EvClient c) ;; ret c.

(** *** categorize_email *)

(** First component of the returned pair: text (a model reply or a
    sentinel) or the decoded tool payload. *)
Inductive Category :=
| CatText (s : string)
| CatData (j : Json).

Definition user_turn (email_body : string) : Turn :=
  mkTurn User [TextPart ("Categorize the following email: " ++ email_body)%string].

Definition note_turn (note : string) : Turn := mkTurn Model [TextPart note].

(** Lines 72-130: the request to the model backend and what is made of
    its reply, with the names bound so far as arguments. *)
Definition categorize_with_tools (current_history : loc)
    (user_prompt_part : Turn) (contents_payload : loc)
    (mcp_tools_response : list Tool) : M (Category * loc) unit :=
  (* 72-87 *)
  let tools_for_gemini := map declare_tool mcp_tools_response in
  (* 89-100 *)
  response <-
    try_except
      ( payload <- contents contents_payload ;;
        await (generate_content w payload 0 tools_for_gemini)
              (EvGenerateContent payload tools_for_gemini) )
      [ (is_Exception, fun _ =>
           note <- new_list [user_prompt_part; note_turn "Error calling Gemini."] ;;
           updated_history <- py_add current_history note ;;
           return_ (CatText "unknown_category_error_gemini_api", updated_history)) ] ;;
  (* 102 *)
  candidate <- index0 (candidates response) ;;
  model_response_part <- index0 (content_parts candidate) ;;
  (* 103 *)
  reply <- new_list [user_prompt_part; mkTurn Model [RawPart model_response_part]] ;;
  updated_history <- py_add current_history reply ;;
  (* 105 *)
  match function_call model_response_part with
  | Some function_call =>
      (* 108-124 *)
      try_except
        ( tool_result <-
            await (call_tool w (fc_name function_call) (fc_args function_call))
                  (EvCallTool (fc_name function_call) (fc_args function_call)) ;;
          try_except
            ( part0 <- index0 (content tool_result) ;;
              text <- getattr (cp_text part0) ;;
              category_data <- py_json_loads text ;;
              return_ (CatData category_data, updated_history) )
            [ (is_JSONDecodeError, fun _ =>
                 return_ (CatText "error_mcp_json_decode", updated_history));
              (is_IndexError_or_AttributeError, fun _ =>
                 return_ (CatText "error_mcp_result_structure", updated_history)) ] )
        [ (is_Exception, fun _ =>
             return_ (CatText ("error_calling_mcp_tool_" ++ fc_name function_call)%string,
                      updated_history)) ]
  | None =>
      (* 125-130 *)
      match response_text response with
      | Some text =>
          if truthy (Some text) then return_ (CatText text, updated_history)
          else return_ (CatText "unknown_no_function_call_or_text", updated_history)
      | None => return_ (CatText "unknown_no_function_call_or_text", updated_history)
      end
  end.

(** Lines 55-70.  The block repeats the comprehension of lines 72-87 over
    the name [mcp_tools], and is written one level further out than the
    statements around it (as committed, Python rejects line 72 for its
    indentation).  It is taken where it stands in the statement sequence,
    after the discovery of line 53 and before line 72; whichever of the two
    [async with] blocks it is attached to, it runs under the [try] of
    line 47 and before the request of line 90. *)
Definition stale_tools_block (mcp_tools_response : list Tool)
    : M (Category * loc) (list GeminiTool) :=
  mcp_tools <- load_name (scope_at_line_55 mcp_tools_response) "mcp_tools" ;;
  ts <- getattr_tools mcp_tools ;;
  ret (map declare_tool ts).

(** Lines 47-135: the guarded block and its handler. *)
Definition categorize_guarded (current_history : loc)
    (user_prompt_part : Turn) (contents_payload : loc)
    (mcp_client_context : ClientContext) : M (Category * loc) unit :=
  try_except
    ( async_with (await (transport_enter w mcp_client_context) EvTransportEnter)
        EvTransportExit (fun _ =>
      async_with (await (session_enter w) EvSessionEnter)
        EvSessionExit (fun _ =>
        await (initialize w) EvInitialize ;;
        mcp_tools_response <- await (list_tools w) EvListTools ;;
        tools <- stale_tools_block mcp_tools_response ;;
        categorize_with_tools current_history user_prompt_part
          contents_payload mcp_tools_response)) )
    [ (is_Exception, fun _ =>
         note <- new_list [user_prompt_part; note_turn "Error in MCP session."] ;;
         updated_history <- py_add current_history note ;;
         return_ (CatText "error_mcp_session_categorization", updated_history)) ].

Definition categorize_email (email_body : string) (history : option loc)
    : M (Category * loc) unit :=
  (* 28 *)
  h <- or_empty history ;;
  current_history <- py_list h ;;
  (* 29 *)
  let user_prompt_part := user_turn email_body in
  (* 30 *)
  single <- new_list [user_prompt_part] ;;
  contents_payload <- py_add current_history single ;;
  (* 31: the payload is serialised for the log before anything is guarded *)
  json_dumps contents_payload ;;
  (* 34-45 *)
  mcp_client_context <- build_client categorize_client_context ;;
  (* 47-135 *)
  categorize_guarded current_history user_prompt_part contents_payload
    mcp_client_context.

(** *** filter_emails *)

Definition gmail_tool_name : string := "gmail_fetch_emails".

Definition dummy_args : list (string * Json) :=
  [("query", JStr "unread"); ("max_results", JNum 10)].

Definition error_record (msg : string) : Json := JObj [("error", JStr msg)].

Definition json_of_text (v : option string) : Json :=
  match v with
  | Some s => JStr s
  | None => JNull
  end.

(** Lines 173-186, one round per content part.  [fetched_data] is a list
    no other name refers to; [append] is written as the list it leaves. *)
Fixpoint classify_content (parts : list ContentPart) (fetched_data : list Json)
    : M (list Json) (list Json) :=
  match parts with
  | [] => ret fetched_data
  | part :: rest =>
      text <- getattr (cp_text part) ;;
      fetched_data <-
        (if truthy text then
           try_except
             ( j <- py_json_loads text ;; ret (fetched_data ++ [j]) )
             [ (is_JSONDecodeError, fun _ =>
                  ret (fetched_data
                         ++ [JObj [("raw_text", json_of_text text);
                                   ("error", JStr "not_json")]])) ]
         else
           tool_code <- getattr (cp_tool_code part) ;;
           if truthy tool_code then
             ret (fetched_data ++ [JObj [("tool_code", json_of_text tool_code)]])
           else
             ret (fetched_data ++ [JObj [("unknown_part", JStr (cp_str part))]])) ;;
      classify_content rest fetched_data
  end.

Definition filter_emails : M (list Json) unit :=
  (* 141 *)
  let fetched_data : list Json := [] in
  (* 143-153 *)
  mcp_client_context <- build_client filter_client_context ;;
  (* 155-198 *)
  try_except (A := unit)
    ( async_with (await (transport_enter w mcp_client_context) EvTransportEnter)
        EvTransportExit (fun _ =>
      async_with (await (session_enter w) EvSessionEnter)
        EvSessionExit (fun _ =>
        await (initialize w) EvInitialize ;;
        available_tools_response <- await (list_tools w) EvListTools ;;
        let tool_names := map name available_tools_response in
        if existsb (String.eqb gmail_tool_name) tool_names then
          try_except
            ( result <-
                await (call_tool w gmail_tool_name dummy_args)
                      (EvCallTool gmail_tool_name dummy_args) ;;
              fetched_data <-
                match content result with
                | [] => ret fetched_data
                | _ :: _ => classify_content (content result) fetched_data
                end ;;
              return_ fetched_data )
            [ (is_Exception, fun _ =>
                 return_ [error_record ("Failed to call " ++ gmail_tool_name)%string]) ]
        else
          return_ [error_record ("Tool " ++ gmail_tool_name ++ " not found")%string])) )
    [ (is_Exception, fun _ =>
         return_ [error_record "MCP client session failed for filtering"]) ] ;;
  (* 199-200 *)
  return_ fetched_data.

(** *** Calls *)

(** A call made with the store [h], observed with the trace of that call
    alone. *)
Definition run_categorize_email (email_body : string) (history : option loc)
    (h : list (list Turn)) : State * PyResult (Category * loc) :=
  call (categorize_email email_body history) (mkState h []).

Definition run_filter_emails : State * PyResult (list Json) :=
  call filter_emails (mkState [] []).

End Program.

(** ** Observations on runs *)

(** The sequence a [history] argument denotes in a store. *)
Definition history_value (h : list (list Turn)) (history : option loc)
    : list Turn :=
  match history with
  | None => []
  | Some r => deref h r
  end.

(** The list [history or []] creates when [history] is [None] or empty. *)
Definition or_empty_cells (H : list Turn) : list (list Turn) :=
  match H with
  | [] => [[]]
  | _ :: _ => []
  end.

Definition session_note : Turn := note_turn "Error in MCP session.".

Definition session_sentinel : Category :=
  CatText "error_mcp_session_categorization".

(** The session operations [categorize_email] gets to perform. *)
Definition categorize_session_trace (w : World) (ctx : ClientContext)
    : list Event :=
  match transport_enter w ctx with
  | Fails _ => [EvTransportEnter false]
  | Ok _ =>
      EvTransportEnter true ::
      match session_enter w with
      | Fails _ => [EvSessionEnter false; EvTransportExit]
      | Ok _ =>
          EvSessionEnter true ::
          match initialize w with
          | Fails _ => [EvInitialize false; EvSessionExit; EvTransportExit]
          | Ok _ =>
              [EvInitialize true; EvListTools (succeeded (list_tools w));
               EvSessionExit; EvTransportExit]
          end
      end
  end.

(** Opening the transport, entering the session or the handshake failed. *)
Definition establishment_failed (tr : list Event) : Prop :=
  In (EvTransportEnter false) tr
  \/ In (EvSessionEnter false) tr
  \/ In (EvInitialize false) tr.

Definition backend_calls (tr : list Event) : list Event :=
  filter is_generate_content tr.

Definition tool_calls (tr : list Event) : list Event :=
  filter is_call_tool tr.

Definition clients_built (tr : list Event) : list Event :=
  filter is_client tr.





(** *** Runs of filter_emails *)

Definition session_failed : list Json :=
  [error_record "MCP client session failed for filtering"].

Definition call_failed : list Json :=
  [error_record "Failed to call gmail_fetch_emails"].

Definition not_found : list Json :=
  [error_record "Tool gmail_fetch_emails not found"].

Definition advertised (tools : list Tool) : bool :=
  existsb (String.eqb gmail_tool_name) (map name tools).

Definition fetch_call : bool -> Event := EvCallTool gmail_tool_name dummy_args.

(** The runs of [filter_emails], one constructor per way through the
    function: what the collaborators answered, the session operations
    performed after the client was built, and the list returned. *)
Inductive FetchRun (w : World) (jl : string -> option Json) (ctx : ClientContext)
  : list Event -> list Json -> Prop :=
| FetchTransportFailed e :
    transport_enter w ctx = Fails e ->
    FetchRun w jl ctx [EvTransportEnter false] session_failed
| FetchSessionFailed e :
    transport_enter w ctx = Ok tt ->
    session_enter w = Fails e ->
    FetchRun w jl ctx
      [EvTransportEnter true; EvSessionEnter false; EvTransportExit]
      session_failed
| FetchInitializeFailed e :
    transport_enter w ctx = Ok tt ->
    session_enter w = Ok tt ->
    initialize w = Fails e ->
    FetchRun w jl ctx
      [EvTransportEnter true; EvSessionEnter true; EvInitialize false;
       EvSessionExit; EvTransportExit]
      session_failed
| FetchDiscoveryFailed e :
    transport_enter w ctx = Ok tt ->
    session_enter w = Ok tt ->
    initialize w = Ok tt ->
    list_tools w = Fails e ->
    FetchRun w jl ctx
      [EvTransportEnter true; EvSessionEnter true; EvInitialize true;
       EvListTools false; EvSessionExit; EvTransportExit]
      session_failed
| FetchNotFound tools :
    transport_enter w ctx = Ok tt ->
    session_enter w = Ok tt ->
    initialize w = Ok tt ->
    list_tools w = Ok tools ->
    advertised tools = false ->
    FetchRun w jl ctx
      [EvTransportEnter true; EvSessionEnter true; EvInitialize true;
       EvListTools true; EvSessionExit; EvTransportExit]
      not_found
| FetchCallFailed tools e :
    transport_enter w ctx = Ok tt ->
    session_enter w = Ok tt ->
    initialize w = Ok tt ->
    list_tools w = Ok tools ->
    advertised tools = true ->
    call_tool w gmail_tool_name dummy_args = Fails e ->
    FetchRun w jl ctx
      [EvTransportEnter true; EvSessionEnter true; EvInitialize true;
       EvListTools true; fetch_call false; EvSessionExit; EvTransportExit]
      call_failed
| FetchClassified tools result s fetched_data :
    transport_enter w ctx = Ok tt ->
    session_enter w = Ok tt ->
    initialize w = Ok tt ->
    list_tools w = Ok tools ->
    advertised tools = true ->
    call_tool w gmail_tool_name dummy_args = Ok result ->
    classify_content jl (content result) [] s = (s, Normal fetched_data) ->
    FetchRun w jl ctx
      [EvTransportEnter true; EvSessionEnter true; EvInitialize true;
       EvListTools true; fetch_call true; EvSessionExit; EvTransportExit]
      fetched_data
| FetchClassifyFailed tools result s e :
    transport_enter w ctx = Ok tt ->
    session_enter w = Ok tt ->
    initialize w = Ok tt ->
    list_tools w = Ok tools ->
    advertised tools = true ->
    call_tool w gmail_tool_name dummy_args = Ok result ->
    classify_content jl (content result) [] s = (s, Raise e) ->
    FetchRun w jl ctx
      [EvTransportEnter true; EvSessionEnter true; EvInitialize true;
       EvListTools true; fetch_call true; EvSessionExit; EvTransportExit]
      call_failed.

(** ** Sample configurations and collaborators *)

Module Samples.

Definition cfg_http : Config :=
  mkConfig "http://localhost:8080/test_mcp_http" (fun _ => None).

Definition cfg_stdio : Config :=
  mkConfig ""
    (fun key =>
       if String.eqb key "MCP_STDIO_COMMAND" then Some "test_mcp_command_stdio"
       else if String.eqb key "SERP_API_KEY" then Some "test_serp_api_key_stdio"
       else None).

Definition quote : string := String (ascii_of_nat 34) EmptyString.

(** The text [{"category": "promotions"}]. *)
Definition promotions_text : string :=
  ("{" ++ quote ++ "category" ++ quote ++ ": "
       ++ quote ++ "promotions" ++ quote ++ "}")%string.

Definition promotions : Json := JObj [("category", JStr "promotions")].

(** A decoder that knows one document. *)
Definition json_loads_promotions (s : string) : option Json :=
  if String.eqb s promotions_text then Some promotions else None.

Definition text_content (s : string) : ContentPart :=
  mkContentPart (Present (Some s)) Missing s.

Definition test_call : FunctionCall :=
  mkFunctionCall "test_tool_stdio" [("param", JStr "val_stdio")].

(** The collaborators of [test_successful_categorization_function_call_stdio]:
    every session operation succeeds, no tool is advertised, the backend
    asks for [test_tool_stdio] and the tool answers the promotions text. *)
Definition world_function_call : World :=
  mkWorld (fun _ => Ok tt) (Ok tt) (Ok tt) (Ok [])
    (fun _ _ _ =>
       Ok (mkResponse [mkCandidate [mkModelPart (Some test_call) None]] None))
    (fun _ _ => Ok (mkToolResult [text_content promotions_text])).

(** The collaborators of [test_model_returns_direct_text]. *)
Definition world_direct_text : World :=
  mkWorld (fun _ => Ok tt) (Ok tt) (Ok tt) (Ok [])
    (fun _ _ _ =>
       Ok (mkResponse
             [mkCandidate [mkModelPart None (Some "direct_category")]]
             (Some "direct_category")))
    (fun _ _ => Fails (OtherException "call_tool is not expected")).

(** The transport cannot be opened. *)
Definition world_transport_fails : World :=
  mkWorld (fun _ => Fails (OtherException "Stdio client failed to start"))
    (Ok tt) (Ok tt) (Ok [])
    (fun _ _ _ => Fails GoogleAPIError)
    (fun _ _ => Fails (OtherException "no session")).

(** The session is up and initialised; discovery fails. *)
Definition world_discovery_fails : World :=
  mkWorld (fun _ => Ok tt) (Ok tt) (Ok tt)
    (Fails (OtherException "list_tools failed"))
    (fun _ _ _ =>
       Ok (mkResponse
             [mkCandidate [mkModelPart None (Some "direct_category")]]
             (Some "direct_category")))
    (fun _ _ => Fails (OtherException "call_tool is not expected")).

Definition gmail_tool : Tool := mkTool "gmail_fetch_emails" "fetch emails" [].

Definition other_tool : Tool :=
  mkTool "categorize" "categorize an email"
    [("type", JStr "object"); ("$schema", JStr "draft-07")].

(** [gmail_fetch_emails] is advertised and answers one JSON document. *)
Definition world_gmail : World :=
  mkWorld (fun _ => Ok tt) (Ok tt) (Ok tt) (Ok [other_tool; gmail_tool])
    (fun _ _ _ => Fails GoogleAPIError)
    (fun _ _ => Ok (mkToolResult [text_content promotions_text])).

(** [gmail_fetch_emails] is advertised and the call fails. *)
Definition world_gmail_fails : World :=
  mkWorld (fun _ => Ok tt) (Ok tt) (Ok tt) (Ok [gmail_tool])
    (fun _ _ _ => Fails GoogleAPIError)
    (fun _ _ => Fails (OtherException "Tool call kaboom")).

(** Discovery succeeds without [gmail_fetch_emails]. *)
Definition world_no_gmail : World :=
  mkWorld (fun _ => Ok tt) (Ok tt) (Ok tt) (Ok [other_tool])
    (fun _ _ _ => Fails GoogleAPIError)
    (fun _ _ => Ok (mkToolResult [])).

(** A history as a successful call leaves it: the model turn holds the
    backend's part object. *)
Definition history_with_reply (p : ModelPart) : list Turn :=
  [user_turn "first email"; mkTurn Model [RawPart p]].

Definition history_of_text : list Turn :=
  [mkTurn User [TextPart "Hello model"]; mkTurn Model [TextPart "Hello user"]].

(** A first call, without history, when discovery fails. *)
Definition run_discovery_fails : State * PyResult (Category * loc) :=
  run_categorize_email cfg_stdio world_discovery_fails json_loads_promotions
    "hello" None [].

End Samples.

(** ** Further observations *)

(** The record line 178 or line 180 appends for a text part. *)
Definition text_record (jl : string -> option Json) (s : string) : Json :=
  match jl s with
  | Some j => j
  | None => JObj [("raw_text", JStr s); ("error", JStr "not_json")]
  end.

(** A content part whose [text] is a non-empty string. *)
Definition has_text (part : ContentPart) (s : string) : Prop :=
  cp_text part = Present (Some s) /\ s <> "".

(** A content part on which lines 174-186 raise: it has no [text]
    attribute, or a false [text] and no [tool_code] attribute. *)
Definition unreadable (part : ContentPart) : Prop :=
  cp_text part = Missing
  \/ (exists v, cp_text part = Present v /\ truthy v = false
                /\ cp_tool_code part = Missing).

(** Every manager entered in a run was released at its end, the session
    before the transport. *)
Definition released (tr : list Event) : Prop :=
  (In (EvTransportEnter true) tr -> exists pre, tr = pre ++ [EvTransportExit])
  /\ (In (EvSessionEnter true) tr ->
        exists pre, tr = pre ++ [EvSessionExit; EvTransportExit])
  /\ (~ In (EvTransportEnter true) tr -> ~ In EvTransportExit tr)
  /\ (~ In (EvSessionEnter true) tr -> ~ In EvSessionExit tr).

(** The backend answers the request of line 90 with [part] as the first
    part of its first candidate and [text] as the text of the response. *)
Definition replies_with (w : World) (tools : list Tool) (s : State) (cp : loc)
    (part : ModelPart) (text : option string) : Prop :=
  exists resp cand cs ps,
    generate_content w (deref (heap s) cp) 0 (map declare_tool tools) = Ok resp
    /\ candidates resp = cand :: cs
    /\ content_parts cand = part :: ps
    /\ response_text resp = text.

(** The request of line 90 as it shows in a trace. *)
Definition request (tools : list Tool) (s : State) (cp : loc) : bool -> Event :=
  EvGenerateContent (deref (heap s) cp) (map declare_tool tools).

(** ** More sample collaborators *)

Module Cases.

(** A store with an empty history at 0 and the payload of a first request
    at 1, as lines 28-30 leave it. *)
Definition store : State :=
  mkState [[]; [user_turn "hello"]] [].

Definition call_part : ModelPart :=
  mkModelPart (Some Samples.test_call) None.

Definition reply (part : ModelPart) (text : option string) : Response :=
  mkResponse [mkCandidate [part]] text.

Definition world_of (backend : Outcome Response) (tool : Outcome ToolResult)
    : World :=
  mkWorld (fun _ => Ok tt) (Ok tt) (Ok tt) (Ok [Samples.other_tool])
    (fun _ _ _ => backend) (fun _ _ => tool).

Definition backend_down : World :=
  world_of (Fails GoogleAPIError) (Fails (OtherException "not expected")).

Definition not_json : World :=
  world_of (Ok (reply call_part None))
    (Ok (mkToolResult [Samples.text_content "This is not JSON"])).

Definition no_content : World :=
  world_of (Ok (reply call_part None)) (Ok (mkToolResult [])).

Definition tool_down : World :=
  world_of (Ok (reply call_part None))
    (Fails (OtherException "MCP tool exploded")).

Definition silent : World :=
  world_of (Ok (reply (mkModelPart None None) None))
    (Fails (OtherException "not expected")).

Definition no_candidate : World :=
  world_of (Ok (mkResponse [] None)) (Fails (OtherException "not expected")).

(** [gmail_fetch_emails] answers a text and a part without [text]. *)
Definition image_content : ContentPart :=
  mkContentPart Missing Missing "ImageContent".

Definition world_text_and_image : World :=
  mkWorld (fun _ => Ok tt) (Ok tt) (Ok tt) (Ok [Samples.gmail_tool])
    (fun _ _ _ => Fails GoogleAPIError)
    (fun _ _ =>
       Ok (mkToolResult [Samples.text_content Samples.promotions_text;
                         image_content])).


End Cases.

(** ** main (lines 203-266) and the script (lines 269-275)

    [main] reads lines from the console and prints its answers.  A string
    is taken as a sequence of code points below 256; [str.lower] and
    [str.strip] are written out for those.  The console input is a finite
    sequence of lines and interrupts; [input] raises [EOFError] when it is
    used up. *)

Definition py_lower_char (c : ascii) : ascii :=
  let n := nat_of_ascii c in
  if (((65 <=? n) && (n <=? 90))
      || ((192 <=? n) && (n <=? 222) && negb (n =? 215)))%nat
  then ascii_of_nat (n + 32)
  else c.

Fixpoint py_lower (s : string) : string :=
  match s with
  | EmptyString => EmptyString
  | String c rest => String (py_lower_char c) (py_lower rest)
  end.

Definition py_isspace (c : ascii) : bool :=
  let n := nat_of_ascii c in
  (((9 <=? n) && (n <=? 13)) || ((28 <=? n) && (n <=? 32))
   || (n =? 133) || (n =? 160))%nat.

Fixpoint py_lstrip (s : string) : string :=
  match s with
  | EmptyString => EmptyString
  | String c rest => if py_isspace c then py_lstrip rest else s
  end.

Fixpoint py_rstrip (s : string) : string :=
  match s with
  | EmptyString => EmptyString
  | String c rest =>
      match py_rstrip rest with
      | EmptyString => if py_isspace c then EmptyString else String c EmptyString
      | kept => String c kept
      end
  end.

Definition py_strip (s : string) : string := py_rstrip (py_lstrip s).

(** What [input] meets: a line, or Ctrl-C. *)
Inductive Input :=
| Line (s : string)
| Interrupt.

(** The [print] calls of [main], each with the value it formats. *)
Inductive Output :=
| PleaseEnter
| KeyNotConfigured
| ConfigureFailed
| Categorized (c : Category)
| Unexpected (e : Exn).

(** The surroundings of one run of [main]: the key read at import, what
    [genai.configure] does at line 212 and in each round at line 249, and
    the collaborators of the call of [filter_emails] and of the call of
    [categorize_email] of each round. *)
Record Host := mkHost {
  GEMINI_API_KEY : option string;
  configure_at_start : Outcome unit;
  configure : nat -> Outcome unit;
  fetch_world : World;
  round_world : nat -> World
}.

(** The state of the coroutines together with the console. *)
Record Session := mkSession {
  machine : State;
  console : list Output
}.

Definition IO (A : Type) := Session -> Session * Completion unit A.

Definition io_ret {A} (a : A) : IO A := fun t => (t, Normal a).

Definition io_bind {A B} (m : IO A) (k : A -> IO B) : IO B :=
  fun t =>
    match m t with
    | (t1, Normal a) => k a t1
    | (t1, Return r) => (t1, Return r)
    | (t1, Raise e) => (t1, Raise e)
    end.

Definition io_raise {A} (e : Exn) : IO A := fun t => (t, Raise e).

Declare Scope io_scope.
Delimit Scope io_scope with io.
Notation "x <- c1 ;; c2" := (io_bind c1 (fun x => c2))
  (at level 100, c1 at next level, right associativity) : io_scope.
Notation "c1 ;; c2" := (io_bind c1 (fun _ => c2))
  (at level 100, right associativity) : io_scope.

Definition print (o : Output) : IO unit :=
  fun t => (mkSession (machine t) (console t ++ [o]), Normal tt).

(** A statement of the coroutine level, run on the machine. *)
Definition lift {A} (m : M unit A) : IO A :=
  fun t => let '(s1, c) := m (machine t) in (mkSession s1 (console t), c).

(** [await f(...)]: the value [f] returns ([None] when it falls off its
    end), or the exception that leaves it. *)
Definition await_call {R} (body : M R unit) : IO (option R) :=
  fun t =>
    match body (machine t) with
    | (s1, Normal _) => (mkSession s1 (console t), Normal None)
    | (s1, Return r) => (mkSession s1 (console t), Normal (Some r))
    | (s1, Raise e) => (mkSession s1 (console t), Raise e)
    end.

Definition outcome_io {A} (o : Outcome A) : IO A :=
  match o with
  | Ok a => io_ret a
  | Fails e => io_raise e
  end.

Fixpoint io_select_clause {A} (clauses : list ((Exn -> bool) * (Exn -> IO A)))
    (e : Exn) : IO A :=
  match clauses with
  | [] => io_raise e
  | (matches, handler) :: rest =>
      if matches e then handler e else io_select_clause rest e
  end.

Definition io_try_except {A} (body : IO A)
    (clauses : list ((Exn -> bool) * (Exn -> IO A))) : IO A :=
  fun t =>
    match body t with
    | (t1, Raise e) => io_select_clause clauses e t1
    | other => other
    end.

(** [a, b = v]. *)
Definition unpack {A B} (v : option (A * B)) : IO (A * B) :=
  match v with
  | Some p => io_ret p
  | None => io_raise TypeError
  end.

Definition EOFError : Exn := OtherException "EOFError".

Section Main.

Variable cfg : Config.
Variable host : Host.
Variable json_loads : string -> option Json.

Local Open Scope io_scope.

Definition exit_commands : list string := ["quit"; "exit"].

(** Lines 224-266: the rounds of the loop from round [n] on, over the
    input still to come.  [break] ends the function, [continue] goes to
    the next round. *)
Fixpoint rounds (n : nat) (inputs : list Input) (chat_history : loc)
    : IO unit :=
  match inputs with
  | [] =>
      (* 226 *)
      io_raise EOFError
  | Interrupt :: _ =>
      (* 228-230 *)
      io_ret tt
  | Line email_body :: rest =>
      (* 232-234 *)
      if existsb (String.eqb (py_lower email_body)) exit_commands then
        io_ret tt
      (* 236-239 *)
      else if String.eqb (py_strip email_body) "" then
        print PleaseEnter ;;
        rounds (S n) rest chat_history
      (* 241-245 *)
      else if negb (truthy (GEMINI_API_KEY host)) then
        print KeyNotConfigured ;;
        rounds (S n) rest chat_history
      else
        (* 248-253 *)
        configured <-
          io_try_except
            ( outcome_io (configure host n) ;; io_ret true )
            [ (is_Exception, fun _ => print ConfigureFailed ;; io_ret false) ] ;;
        if configured then
          (* 255-266 *)
          chat_history <-
            io_try_except
              ( result <-
                  await_call
                    (categorize_email cfg (round_world host n) json_loads
                       email_body (Some chat_history)) ;;
                pair <- unpack result ;;
                let '(category, updated_history) := pair in
                print (Categorized category) ;;
                io_ret updated_history )
              [ (is_Exception, fun e =>
                   print (Unexpected e) ;; io_ret chat_history) ] ;;
          rounds (S n) rest chat_history
        else
          rounds (S n) rest chat_history
  end.

Definition main (inputs : list Input) : IO unit :=
  (* 207-215 *)
  (if truthy (GEMINI_API_KEY host) then
     io_try_except (outcome_io (configure_at_start host))
       [ (is_Exception, fun _ => io_ret tt) ]
   else io_ret tt) ;;
  (* 218 *)
  filter_results <-
    await_call (filter_emails cfg (fetch_world host) json_loads) ;;
  (* 221 *)
  chat_history <- lift (new_list []) ;;
  (* 224-266 *)
  rounds 0 inputs chat_history.

(** Lines 269-275. *)
Definition script (inputs : list Input) : IO unit :=
  io_try_except (main inputs) [ (is_Exception, fun _ => io_ret tt) ].

Definition run_main (inputs : list Input) : Session * Completion unit unit :=
  main inputs (mkSession (mkState [] []) []).

Definition run_script (inputs : list Input) : Session * Completion unit unit :=
  script inputs (mkSession (mkState [] []) []).

(** *** What a line leads to *)

Definition is_exit (s : string) : bool :=
  existsb (String.eqb (py_lower s)) exit_commands.

Definition is_blank (s : string) : bool := String.eqb (py_strip s) "".

(** The lines up to the one that ends the loop. *)
Fixpoint lines_read (inputs : list Input) : list string :=
  match inputs with
  | [] => []
  | Interrupt :: _ => []
  | Line s :: rest => if is_exit s then [] else s :: lines_read rest
  end.

(** The input holds an exit command or an interrupt. *)
Fixpoint ends_loop (inputs : list Input) : bool :=
  match inputs with
  | [] => false
  | Interrupt :: _ => true
  | Line s :: rest => is_exit s || ends_loop rest
  end.

(** What round [n] prints for a line that is no exit command. *)
Definition answer (n : nat) (s : string) : Output :=
  if is_blank s then PleaseEnter
  else if negb (truthy (GEMINI_API_KEY host)) then KeyNotConfigured
  else if succeeded (configure host n) then Categorized session_sentinel
  else ConfigureFailed.

Fixpoint answers (n : nat) (lines : list string) : list Output :=
  match lines with
  | [] => []
  | s :: rest => answer n s :: answers (S n) rest
  end.

End Main.

Definition is_categorized (o : Output) : bool :=
  match o with Categorized _ => true | _ => false end.

(** The console input holds lines only. *)
Definition no_interrupt (inputs : list Input) : bool :=
  forallb (fun i => match i with Line _ => true | Interrupt => false end) inputs.

(** What round [n] may print for a line that is no exit command: the
    message of line 238, of line 243, of line 252, or one of the two
    messages of lines 255-266. *)
Definition answers_line (host : Host) (n : nat) (s : string) (o : Output)
    : Prop :=
  if is_blank s then o = PleaseEnter
  else if negb (truthy (GEMINI_API_KEY host)) then o = KeyNotConfigured
  else if succeeded (configure host n)
       then (exists c, o = Categorized c) \/ (exists e, o = Unexpected e)
       else o = ConfigureFailed.

(** One message per line, from round [n] on, in the order of the lines. *)
Fixpoint answered (host : Host) (n : nat) (lines : list string)
    (outs : list Output) : Prop :=
  match lines, outs with
  | [], [] => True
  | s :: lines', o :: outs' =>
      answers_line host n s o /\ answered host (S n) lines' outs'
  | _, _ => False
  end.

Module Console.

Definition host_with_key : Host :=
  mkHost (Some "test_gemini_api_key") (Ok tt)
    (fun n => if Nat.eqb n 2 then Fails (OtherException "configure") else Ok tt)
    Samples.world_gmail (fun _ => Samples.world_direct_text).

Definition host_without_key : Host :=
  mkHost None (Ok tt) (fun _ => Ok tt)
    Samples.world_gmail (fun _ => Samples.world_direct_text).

Definition session_inputs : list Input :=
  [Line "first email"; Line "   "; Line "second email"; Line "third email";
   Line "QuIt"; Line "never read"].

End Console.

(** ** Proof tools *)

(** Reads of a store that grew at its end: [Last] is the lemma for the
    cell just added, [Old] the one for the cells before it. *)
Ltac heap_norm_with Last Old :=
  repeat first
    [ rewrite Last
    | rewrite Old by (rewrite ?length_app; cbn [length]; lia) ].

Ltac unfold_py :=
  cbv [call bind ret return_ raise emit await build_client try_except
       async_with select_clause new_list contents or_empty py_list py_add
       json_dumps is_Exception getattr index0 py_json_loads];
  cbn [heap trace fst snd succeeded app].

Ltac close_handler_with Last Old :=
  heap_norm_with Last Old;
  rewrite <- ?app_assoc, length_app, Nat.add_1_r; reflexivity.

(** A [return] of a history ending in a model turn: [Hd] gives the turns
    of the returned list, [Hb] the backend request in the trace. *)
Ltac returns_model_turn Hd Hb :=
  do 3 eexists; eexists (mkTurn Model _);
  split; [reflexivity |]; cbn [heap trace];
  split; [reflexivity |];
  split; [exact Hd | rewrite <- ?app_assoc; apply Hb].

Ltac unfold_io :=
  cbv [io_bind io_ret io_raise print lift await_call outcome_io io_try_except
       io_select_clause unpack is_Exception];
  cbn [machine console fst snd].

(** The four parts of [released] on a trace written out. *)
Ltac solve_released :=
  unfold released; cbn [app];
  repeat split;
  [ intros Hin;
    match goal with
    | |- exists pre, ?l = pre ++ _ =>
        first [ exists (removelast l); reflexivity
              | exfalso; cbn in Hin; intuition discriminate ]
    end
  | intros Hin;
    match goal with
    | |- exists pre, ?l = pre ++ _ =>
        first [ exists (removelast (removelast l)); reflexivity
              | exfalso; cbn in Hin; intuition discriminate ]
    end
  | intros Hno Hin; cbn in Hno, Hin; intuition discriminate
  | intros Hno Hin; cbn in Hno, Hin; intuition discriminate ].


(** ** The store *)

Lemma deref_last : forall h (l : list Turn), deref (h ++ [l]) (length h) = l.
Proof. intros h l. unfold deref. now rewrite nth_middle. Qed.

Lemma deref_old : forall h t r, r < length h -> deref (h ++ t) r = deref h r.
Proof. intros h t r Hr. unfold deref. now apply app_nth1. Qed.

Lemma json_serializable_user : forall H email_body,
  json_serializable (H ++ [user_turn email_body]) = json_serializable H.
Proof.
  intros H email_body. unfold json_serializable.
  rewrite forallb_app. cbn. now rewrite andb_true_r.
Qed.

(** ** categorize_email *)

(** The name [mcp_tools] is bound neither in the function nor in the
    module (and Python has no builtin of that name). *)
Lemma mcp_tools_unbound : forall ts,
  lookup_name (scope_at_line_55 ts) "mcp_tools" = None.
Proof. intros ts. reflexivity. Qed.

(** The guarded block always leaves through its handler: either a session
    operation fails, or line 69 raises [NameError]. *)
Lemma categorize_guarded_run : forall w jl ch u cp ctx s,
  ch < length (heap s) ->
  categorize_guarded w jl ch u cp ctx s =
  (mkState (heap s ++ [[u; session_note]; deref (heap s) ch ++ [u; session_note]])
           (trace s ++ categorize_session_trace w ctx),
   Return (session_sentinel, S (length (heap s)))).
Proof.
  intros w jl ch u cp ctx [h tr] Hch. cbn [heap trace] in *.
  unfold categorize_guarded, categorize_session_trace, stale_tools_block, load_name.
  unfold_py.
  destruct (transport_enter w ctx) as [[]|e1]; cbn [heap trace succeeded app];
    [| close_handler_with deref_last deref_old].
  destruct (session_enter w) as [[]|e2]; cbn [heap trace succeeded app];
    [| close_handler_with deref_last deref_old].
  destruct (initialize w) as [[]|e3]; cbn [heap trace succeeded app];
    [| close_handler_with deref_last deref_old].
  destruct (list_tools w) as [ts|e4]; cbn [heap trace succeeded app];
    [| close_handler_with deref_last deref_old].
  rewrite mcp_tools_unbound. cbn [heap trace].
  close_handler_with deref_last deref_old.
Qed.

Lemma call_bind : forall R A (m : M R A) (k : A -> M R unit) s s1 a,
  m s = (s1, Normal a) -> call (bind m k) s = call (k a) s1.
Proof. intros R A m k s s1 a Hm. unfold call, bind. now rewrite Hm. Qed.

(** [history or []] yields a list with the contents of [history], new
    when [history] is [None] or empty. *)
Lemma or_empty_run : forall R history h tr,
  exists hh,
    or_empty (R := R) history (mkState h tr)
    = (mkState (h ++ or_empty_cells (history_value h history)) tr, Normal hh)
    /\ deref (h ++ or_empty_cells (history_value h history)) hh
       = history_value h history.
Proof.
  intros R [r|] h tr; cbn [or_empty history_value].
  - unfold_py. destruct (deref h r) as [|t l] eqn:E; cbn [or_empty_cells].
    + exists (length h). split; [reflexivity | apply deref_last].
    + exists r. rewrite app_nil_r. split; [reflexivity | exact E].
  - exists (length h). split; [reflexivity | apply deref_last].
Qed.

(** A call in closed form: the lists it creates, the operations it
    performs and how it ends. *)
Lemma run_categorize_email_eq : forall cfg w jl email_body history h,
  let H := history_value h history in
  let u := user_turn email_body in
  let h1 := h ++ or_empty_cells H ++ [H; [u]; H ++ [u]] in
  run_categorize_email cfg w jl email_body history h =
  if json_serializable H then
    (mkState (h1 ++ [[u; session_note]; H ++ [u; session_note]])
             (EvClient (categorize_client_context cfg)
                :: categorize_session_trace w (categorize_client_context cfg)),
     Returns (session_sentinel, S (length h1)))
  else (mkState h1 [], Raises TypeError).
Proof.
  intros cfg w jl email_body history h H u h1.
  assert (Hrest : forall h0 hh,
            deref h0 hh = H -> h0 = h ++ or_empty_cells H ->
            call (current_history <- py_list hh ;;
                  single <- new_list [u] ;;
                  contents_payload <- py_add current_history single ;;
                  json_dumps contents_payload ;;
                  mcp_client_context <- build_client (categorize_client_context cfg) ;;
                  categorize_guarded w jl current_history u contents_payload
                    mcp_client_context)%py
                 (mkState h0 []) =
            if json_serializable H then
              (mkState (h1 ++ [[u; session_note]; H ++ [u; session_note]])
                 (EvClient (categorize_client_context cfg)
                    :: categorize_session_trace w (categorize_client_context cfg)),
               Returns (session_sentinel, S (length h1)))
            else (mkState h1 [], Raises TypeError)).
  { intros h0 hh Hd Hh0.
    unfold_py. heap_norm_with deref_last deref_old. rewrite Hd.
    pose proof (json_serializable_user H email_body) as Hj.
    fold u in Hj. rewrite Hj. clear Hj.
    assert (Hh1 : ((h0 ++ [H]) ++ [[u]]) ++ [H ++ [u]] = h1).
    { unfold h1. rewrite Hh0, <- !app_assoc. reflexivity. }
    rewrite Hh1.
    destruct (json_serializable H); [| reflexivity].
    rewrite categorize_guarded_run.
    2:{ cbn [heap]. rewrite <- Hh1, !length_app. cbn. lia. }
    cbn [heap trace app].
    replace (deref h1 (length h0)) with H; [reflexivity |].
    rewrite <- Hh1. now heap_norm_with deref_last deref_old. }
  unfold run_categorize_email, categorize_email.
  destruct (or_empty_run (Category * loc) history h []) as (hh & Hor & Hhh).
  erewrite call_bind; [| exact Hor].
  now apply Hrest.
Qed.

Lemma categorize_session_trace_no_backend : forall w ctx,
  backend_calls (categorize_session_trace w ctx) = []
  /\ tool_calls (categorize_session_trace w ctx) = []
  /\ clients_built (categorize_session_trace w ctx) = [].
Proof.
  intros w ctx. unfold categorize_session_trace.
  destruct (transport_enter w ctx); [| now cbn].
  destruct (session_enter w); [| now cbn].
  destruct (initialize w); now cbn.
Qed.

(** Every list that existed before the call is what it was. *)
Lemma run_categorize_email_frame : forall cfg w jl email_body history h r,
  r < length h ->
  deref (heap (fst (run_categorize_email cfg w jl email_body history h))) r
  = deref h r.
Proof.
  intros cfg w jl email_body history h r Hr.
  rewrite run_categorize_email_eq.
  destruct (json_serializable (history_value h history)); cbn [fst heap];
    rewrite <- ?app_assoc; now apply deref_old.
Qed.

(** What a call returns, when it returns. *)
Lemma run_categorize_email_returns : forall cfg w jl email_body history h s c r,
  run_categorize_email cfg w jl email_body history h = (s, Returns (c, r)) ->
  c = session_sentinel
  /\ length h <= r
  /\ deref (heap s) r
     = history_value h history ++ [user_turn email_body; session_note]
  /\ backend_calls (trace s) = []
  /\ tool_calls (trace s) = []
  /\ clients_built (trace s) = [EvClient (categorize_client_context cfg)].
Proof.
  intros cfg w jl email_body history h s c r Hrun.
  rewrite run_categorize_email_eq in Hrun.
  destruct (json_serializable (history_value h history)); [| discriminate].
  destruct (categorize_session_trace_no_backend w (categorize_client_context cfg))
    as (Hb & Ht & Hc).
  injection Hrun as <- <- <-. cbn [heap trace].
  repeat split.
  - rewrite !length_app. lia.
  - set (h1 := h ++ _ ++ _).
    change (h1 ++ [?a; ?b]) with (h1 ++ [a] ++ [b]).
    rewrite app_assoc.
    replace (S (length h1)) with (length (h1 ++ [[user_turn email_body; session_note]]))
      by (rewrite length_app; cbn; lia).
    apply deref_last.
  - exact Hb.
  - exact Ht.
  - unfold clients_built in *. cbn. now rewrite Hc.
Qed.

(** A history [json.dumps] accepts always gets its answer. *)
Lemma run_categorize_email_total : forall cfg w jl email_body history h,
  json_serializable (history_value h history) = true ->
  exists s r,
    run_categorize_email cfg w jl email_body history h
    = (s, Returns (session_sentinel, r)).
Proof.
  intros cfg w jl email_body history h Hj.
  rewrite run_categorize_email_eq, Hj. eauto.
Qed.

(** *** Lines 72-130, once reached *)

(** A function-call reply is served through the session with the call's
    own name and arguments, and a decodable answer is the category. *)
Lemma categorize_with_tools_function_call :
  forall w jl ch u cp tools s resp cand cs part ps fc result p0 rest text j,
    ch < length (heap s) ->
    generate_content w (deref (heap s) cp) 0 (map declare_tool tools) = Ok resp ->
    candidates resp = cand :: cs ->
    content_parts cand = part :: ps ->
    function_call part = Some fc ->
    call_tool w (fc_name fc) (fc_args fc) = Ok result ->
    content result = p0 :: rest ->
    cp_text p0 = Present (Some text) ->
    jl text = Some j ->
    exists s' r,
      categorize_with_tools w jl ch u cp tools s = (s', Return (CatData j, r))
      /\ deref (heap s') r = deref (heap s) ch ++ [u; mkTurn Model [RawPart part]]
      /\ trace s' = trace s
           ++ [EvGenerateContent (deref (heap s) cp) (map declare_tool tools) true;
               EvCallTool (fc_name fc) (fc_args fc) true].
Proof.
  intros w jl ch u cp tools [h tr] resp cand cs part ps fc result p0 rest text j
    Hch Hgen Hcand Hparts Hfc Hcall Hcontent Htext Hj.
  cbn [heap trace] in *.
  unfold categorize_with_tools. unfold_py.
  rewrite Hgen. cbn [heap trace succeeded]. rewrite Hcand, Hparts.
  cbn [heap trace]. rewrite Hfc. cbn [heap trace].
  rewrite Hcall. cbn [heap trace succeeded]. rewrite Hcontent, Htext.
  cbn [heap trace]. rewrite Hj.
  do 2 eexists. split; [reflexivity |]. cbn [heap trace]. split.
  - heap_norm_with deref_last deref_old. reflexivity.
  - now rewrite <- app_assoc.
Qed.

(** A reply of plain text is the category, and no tool is called. *)
Lemma categorize_with_tools_direct_text :
  forall w jl ch u cp tools s resp cand cs part ps c text,
    ch < length (heap s) ->
    generate_content w (deref (heap s) cp) 0 (map declare_tool tools) = Ok resp ->
    candidates resp = cand :: cs ->
    content_parts cand = part :: ps ->
    function_call part = None ->
    response_text resp = Some (String c text) ->
    exists s' r,
      categorize_with_tools w jl ch u cp tools s
      = (s', Return (CatText (String c text), r))
      /\ deref (heap s') r = deref (heap s) ch ++ [u; mkTurn Model [RawPart part]]
      /\ trace s' = trace s
           ++ [EvGenerateContent (deref (heap s) cp) (map declare_tool tools) true].
Proof.
  intros w jl ch u cp tools [h tr] resp cand cs part ps c text
    Hch Hgen Hcand Hparts Hfc Htext.
  cbn [heap trace] in *.
  unfold categorize_with_tools. unfold_py.
  rewrite Hgen. cbn [heap trace succeeded]. rewrite Hcand, Hparts.
  cbn [heap trace]. rewrite Hfc, Htext. cbn [truthy].
  do 2 eexists. split; [reflexivity |]. cbn [heap trace]. split.
  - heap_norm_with deref_last deref_old. reflexivity.
  - reflexivity.
Qed.

(** Every way out of lines 72-130 is a [return] of the history followed by
    the user turn and one model turn, made after the backend was asked, or
    an exception for the handler of line 131; the block never falls
    through. *)
Lemma categorize_with_tools_exits : forall w jl ch u cp tools s,
  ch < length (heap s) ->
  (exists s' c r model_turn,
     categorize_with_tools w jl ch u cp tools s = (s', Return (c, r))
     /\ role model_turn = Model
     /\ deref (heap s') r = deref (heap s) ch ++ [u; model_turn]
     /\ backend_calls (trace s') <> [])
  \/ (exists s' e,
        categorize_with_tools w jl ch u cp tools s = (s', Raise e)
        /\ heap s' = heap s).
Proof.
  intros w jl ch u cp tools [h tr] Hch. cbn [heap trace] in *.
  assert (Hb : forall a b ok rest,
            backend_calls (tr ++ EvGenerateContent a b ok :: rest) <> []).
  { intros a b ok rest. unfold backend_calls. rewrite filter_app. cbn.
    destruct (filter is_generate_content tr); discriminate. }
  assert (Hd : forall m,
            deref ((h ++ [[u; m]])
                     ++ [deref (h ++ [[u; m]]) ch
                         ++ deref (h ++ [[u; m]]) (length h)])
                  (length (h ++ [[u; m]]))
            = deref h ch ++ [u; m]).
  { intros m. now heap_norm_with deref_last deref_old. }
  unfold categorize_with_tools. unfold_py.
  destruct (generate_content w (deref h cp) 0 (map declare_tool tools))
    as [resp|e]; cbn [heap trace succeeded].
  2:{ left. returns_model_turn (Hd (note_turn "Error calling Gemini.")) Hb. }
  destruct (candidates resp) as [|cand cs]; cbn [heap trace].
  { right. do 2 eexists. split; reflexivity. }
  destruct (content_parts cand) as [|part ps]; cbn [heap trace].
  { right. do 2 eexists. split; reflexivity. }
  left. specialize (Hd (mkTurn Model [RawPart part])).
  destruct (function_call part) as [fc|]; cbn [heap trace].
  - destruct (call_tool w (fc_name fc) (fc_args fc)) as [result|e];
      cbn [heap trace succeeded]; [| returns_model_turn Hd Hb].
    destruct (content result) as [|p0 rest]; cbn [heap trace];
      [returns_model_turn Hd Hb |].
    destruct (cp_text p0) as [|[text|]]; cbn [heap trace];
      try returns_model_turn Hd Hb.
    destruct (jl text) as [j|]; cbn [heap trace]; returns_model_turn Hd Hb.
  - destruct (response_text resp) as [text|];
      [destruct (truthy (Some text)) |]; returns_model_turn Hd Hb.
Qed.

(** *** Claims on categorize_email *)

(** C1 (history growth on every exit).  At a history as a successful call
    leaves it, with the backend's part object in its model turn, the call
    hands back no history at all: line 31 raises before the guarded block
    is entered. *)
Theorem categorize_email_no_history_for_raw_part :
  forall cfg w jl email_body p c r,
    snd (run_categorize_email cfg w jl email_body (Some 0)
           [Samples.history_with_reply p])
    <> Returns (c, r).
Proof.
  intros cfg w jl email_body p c r.
  rewrite run_categorize_email_eq. cbn. discriminate.
Qed.

(** C2 (no exception reaches the caller).  The same history makes
    [json.dumps] raise [TypeError] at line 31, outside every [try]; the
    exception leaves [categorize_email], whatever the collaborators do. *)
Theorem categorize_email_raises_on_raw_part :
  forall cfg w jl email_body p,
    snd (run_categorize_email cfg w jl email_body (Some 0)
           [Samples.history_with_reply p])
    = Raises TypeError.
Proof.
  intros cfg w jl email_body p.
  rewrite run_categorize_email_eq. reflexivity.
Qed.

(** C3 (a function call is served and its payload returned).  With the
    collaborators of the repository's own test the tool is never called
    and the session sentinel comes back: the name read at line 69 is
    unbound. *)
Theorem categorize_email_function_call_not_served :
  forall cfg jl email_body,
    let run := run_categorize_email cfg Samples.world_function_call jl
                 email_body None [] in
    (exists r, snd run = Returns (session_sentinel, r))
    /\ (forall r, snd run <> Returns (CatData Samples.promotions, r))
    /\ tool_calls (trace (fst run)) = []
    /\ backend_calls (trace (fst run)) = [].
Proof.
  intros cfg jl email_body run. subst run.
  rewrite run_categorize_email_eq. cbn.
  repeat split; eauto. intros r. discriminate.
Qed.

(** C6 (a text reply is the category).  With the collaborators of the
    repository's own test the backend is never asked and the session
    sentinel comes back instead of the text. *)
Theorem categorize_email_direct_text_not_returned :
  forall cfg jl email_body,
    let run := run_categorize_email cfg Samples.world_direct_text jl
                 email_body None [] in
    (exists r, snd run = Returns (session_sentinel, r))
    /\ (forall r, snd run <> Returns (CatText "direct_category", r))
    /\ backend_calls (trace (fst run)) = []
    /\ tool_calls (trace (fst run)) = [].
Proof.
  intros cfg jl email_body run. subst run.
  rewrite run_categorize_email_eq. cbn.
  repeat split; eauto. intros r. discriminate.
Qed.

(** C4, as stated, at a run where discovery fails: the backend is never
    invoked although transport, session and handshake all succeeded. *)
Lemma categorize_email_discovery_failure_skips_backend :
  ~ (backend_calls (trace (fst Samples.run_discovery_fails)) = [] ->
     establishment_failed (trace (fst Samples.run_discovery_fails))).
Proof.
  cbn. intros Himp. specialize (Himp eq_refl).
  unfold establishment_failed in Himp. cbn in Himp.
  repeat destruct Himp as [Himp | Himp]; try discriminate; assumption.
Qed.

(** C4, amended.  When opening the transport, entering the session, the
    handshake or tool discovery fails, the session sentinel is returned
    with the history followed by the user turn and the note, and the
    backend has not been invoked; and a call that returns without having
    invoked the backend returns exactly that. *)
Theorem categorize_email_session_failure :
  forall cfg w jl email_body history h,
    let H := history_value h history in
    let run := run_categorize_email cfg w jl email_body history h in
    (establishment_failed (trace (fst run))
     \/ In (EvListTools false) (trace (fst run)) ->
       exists r,
         snd run = Returns (CatText "error_mcp_session_categorization", r)
         /\ deref (heap (fst run)) r
            = H ++ [user_turn email_body; note_turn "Error in MCP session."]
         /\ backend_calls (trace (fst run)) = [])
    /\ (forall c r,
          snd run = Returns (c, r) ->
          backend_calls (trace (fst run)) = [] ->
          c = CatText "error_mcp_session_categorization"
          /\ deref (heap (fst run)) r
             = H ++ [user_turn email_body; note_turn "Error in MCP session."]).
Proof.
  intros cfg w jl email_body history h H run.
  destruct run as [s res] eqn:Hrun. subst run. cbn [fst snd].
  split.
  - intros Hfail.
    rewrite run_categorize_email_eq in Hrun. fold H in Hrun.
    destruct (json_serializable H) eqn:Hj.
    + pose proof (run_categorize_email_total cfg w jl email_body history h Hj)
        as (s' & r & Hret).
      pose proof Hret as Hret'.
      rewrite run_categorize_email_eq in Hret'. fold H in Hret'. rewrite Hj in Hret'.
      rewrite Hret' in Hrun. injection Hrun as <- <-.
      destruct (run_categorize_email_returns _ _ _ _ _ _ Hret)
        as (_ & _ & Hd & Hb & _).
      exists r. repeat split; assumption.
    + injection Hrun as <- <-. cbn in Hfail. unfold establishment_failed in Hfail.
      cbn in Hfail. tauto.
  - intros c r -> _.
    destruct (run_categorize_email_returns _ _ _ _ _ _ Hrun)
      as (Hc & _ & Hd & _).
    split; assumption.
Qed.

Lemma categorize_email_session_failure_witness :
  exists r,
    snd (run_categorize_email Samples.cfg_stdio Samples.world_transport_fails
           Samples.json_loads_promotions "hello" (Some 0) [Samples.history_of_text])
    = Returns (CatText "error_mcp_session_categorization", r)
    /\ deref (heap (fst (run_categorize_email Samples.cfg_stdio
                           Samples.world_transport_fails
                           Samples.json_loads_promotions "hello" (Some 0)
                           [Samples.history_of_text]))) r
       = Samples.history_of_text
           ++ [user_turn "hello"; note_turn "Error in MCP session."].
Proof.
  destruct (categorize_email_session_failure Samples.cfg_stdio
              Samples.world_transport_fails Samples.json_loads_promotions
              "hello" (Some 0) [Samples.history_of_text]) as [Hfail _].
  destruct Hfail as (r & Hres & Hd & _).
  - left. left. cbn. right. left. reflexivity.
  - exists r. split; [exact Hres | exact Hd].
Defined.

(** C9 (the caller's history is left alone).  Every list that existed
    before the call, the caller's history among them, holds after the call
    what it held before, however the call ends; a returned history is a
    list created by the call, made of the caller's turns followed by the
    user turn and a model turn; and a history is returned whenever
    [json.dumps] accepts the caller's. *)
Theorem categorize_email_keeps_input_history :
  forall cfg w jl email_body r h,
    r < length h ->
    let run := run_categorize_email cfg w jl email_body (Some r) h in
    (forall r0, r0 < length h -> deref (heap (fst run)) r0 = deref h r0)
    /\ (forall c r',
          snd run = Returns (c, r') ->
          length h <= r'
          /\ exists model_turn,
               role model_turn = Model
               /\ deref (heap (fst run)) r'
                  = deref h r ++ [user_turn email_body; model_turn])
    /\ (json_serializable (deref h r) = true ->
          exists c r', snd run = Returns (c, r')).
Proof.
  intros cfg w jl email_body r h Hr run. split; [| split].
  - intros r0 Hr0. apply run_categorize_email_frame. exact Hr0.
  - intros c r' Hres. subst run.
    destruct (run_categorize_email cfg w jl email_body (Some r) h)
      as [s res] eqn:Hrun.
    cbn [fst snd] in *. subst res.
    destruct (run_categorize_email_returns _ _ _ _ _ _ Hrun)
      as (_ & Hnew & Hd & _).
    split; [exact Hnew |].
    exists session_note. split; [reflexivity | exact Hd].
  - intros Hj. subst run.
    destruct (run_categorize_email_total cfg w jl email_body (Some r) h Hj)
      as (s & r' & Hrun).
    rewrite Hrun. cbn [snd]. eauto.
Qed.

Lemma categorize_email_keeps_input_history_witness :
  deref (heap (fst (run_categorize_email Samples.cfg_http Samples.world_direct_text
                      Samples.json_loads_promotions "Another email" (Some 0)
                      [Samples.history_of_text]))) 0
  = Samples.history_of_text.
Proof.
  assert (Hr : 0 < length [Samples.history_of_text]) by (cbn; lia).
  destruct (categorize_email_keeps_input_history Samples.cfg_http
              Samples.world_direct_text Samples.json_loads_promotions
              "Another email" [Samples.history_of_text] Hr) as (Hframe & _).
  exact (Hframe 0 Hr).
Defined.

(** ** filter_emails *)

(** Classifying content parts performs no session operation and does not
    return from the function: it yields the list or raises. *)
Lemma classify_content_pure : forall jl parts acc s,
  (exists l, classify_content jl parts acc s = (s, Normal l))
  \/ (exists e, classify_content jl parts acc s = (s, Raise e)).
Proof.
  intros jl parts. induction parts as [|part rest IH]; intros acc s.
  - left. exists acc. reflexivity.
  - cbn [classify_content]. unfold_py.
    destruct (cp_text part) as [|text].
    { right. eexists. reflexivity. }
    destruct (truthy text) eqn:Ht.
    + destruct text as [t|]; [| discriminate].
      destruct (jl t) as [j|]; cbn; apply IH.
    + destruct (cp_tool_code part) as [|code].
      { right. eexists. reflexivity. }
      destruct (truthy code); apply IH.
Qed.

(** Every call of [filter_emails] returns a list, by one of the runs of
    [FetchRun]. *)
Lemma run_filter_emails_cases : forall cfg w jl,
  exists tr l,
    run_filter_emails cfg w jl
    = (mkState [] (EvClient (filter_client_context cfg) :: tr), Returns l)
    /\ FetchRun w jl (filter_client_context cfg) tr l.
Proof.
  intros cfg w jl.
  set (ctx := filter_client_context cfg).
  unfold run_filter_emails, filter_emails. fold ctx. unfold_py.
  destruct (transport_enter w ctx) as [[]|e1] eqn:E1; cbn [heap trace app succeeded].
  2:{ do 2 eexists. split; [reflexivity |]. eapply FetchTransportFailed; eassumption. }
  destruct (session_enter w) as [[]|e2] eqn:E2; cbn [heap trace app succeeded].
  2:{ do 2 eexists. split; [reflexivity |]. eapply FetchSessionFailed; eassumption. }
  destruct (initialize w) as [[]|e3] eqn:E3; cbn [heap trace app succeeded].
  2:{ do 2 eexists. split; [reflexivity |]. eapply FetchInitializeFailed; eassumption. }
  destruct (list_tools w) as [tools|e4] eqn:E4; cbn [heap trace app succeeded].
  2:{ do 2 eexists. split; [reflexivity |]. eapply FetchDiscoveryFailed; eassumption. }
  destruct (existsb (String.eqb gmail_tool_name) (map name tools)) eqn:Ead;
    cbn [heap trace app succeeded].
  2:{ do 2 eexists. split; [reflexivity |]. eapply FetchNotFound; eassumption. }
  destruct (call_tool w gmail_tool_name dummy_args) as [result|e5] eqn:E5;
    cbn [heap trace app succeeded].
  2:{ do 2 eexists. split; [reflexivity |]. eapply FetchCallFailed; eassumption. }
  destruct (content result) as [|part rest] eqn:Ec.
  - do 2 eexists. split; [reflexivity |].
    eapply FetchClassified with (s := mkState [] []); try eassumption.
    rewrite Ec. reflexivity.
  - match goal with
    | |- context [classify_content jl _ _ ?s] => set (s0 := s)
    end.
    destruct (classify_content_pure jl (part :: rest) [] s0) as [[l Hl]|[e Hl]];
      rewrite Hl; cbn [heap trace app].
    + do 2 eexists. split; [reflexivity |].
      eapply FetchClassified with (s := s0); try eassumption.
      rewrite Ec. exact Hl.
    + do 2 eexists. split; [reflexivity |].
      eapply FetchClassifyFailed with (s := s0); try eassumption.
      rewrite Ec. exact Hl.
Qed.

Lemma FetchRun_builds_no_client : forall w jl ctx tr l,
  FetchRun w jl ctx tr l ->
  clients_built tr = []
  /\ filter is_http_client tr = []
  /\ filter is_stdio_client tr = [].
Proof. intros w jl ctx tr l Hrun. destruct Hrun; now cbn. Qed.

Lemma advertised_In : forall tools,
  advertised tools = true <-> In "gmail_fetch_emails" (map name tools).
Proof.
  intros tools. unfold advertised. rewrite existsb_exists. split.
  - intros (n & Hin & Heq). apply String.eqb_eq in Heq.
    unfold gmail_tool_name in Heq. now subst n.
  - intros Hin. exists "gmail_fetch_emails". split; [exact Hin | reflexivity].
Qed.

(** ** Transport selection *)





(** *** Claims on transport selection and filter_emails *)




(** C7 (filter_emails never raises).  Every call returns a list.  When
    opening the transport, entering the session or the handshake fails,
    the list is the session-failure marker alone; when the call of the
    tool fails, it is the failed-call marker alone. *)
Theorem filter_emails_returns_list :
  forall cfg w jl,
    exists s l,
      run_filter_emails cfg w jl = (s, Returns l)
      /\ (establishment_failed (trace s) ->
            l = [JObj [("error", JStr "MCP client session failed for filtering")]])
      /\ (In (EvCallTool "gmail_fetch_emails" dummy_args false) (trace s) ->
            l = [JObj [("error", JStr "Failed to call gmail_fetch_emails")]]).
Proof.
  intros cfg w jl.
  destruct (run_filter_emails_cases cfg w jl) as (tr & l & Hfil & Hrun).
  eexists. exists l. split; [exact Hfil |]. cbn [trace].
  unfold establishment_failed.
  destruct Hrun; cbn; (split; [intros Hf | intros Hf]);
    try reflexivity;
    repeat match goal with
    | H : _ \/ _ |- _ => destruct H
    | H : False |- _ => destruct H
    | H : _ = _ |- _ => discriminate H
    end.
Qed.

Lemma filter_emails_returns_list_witness :
  snd (run_filter_emails Samples.cfg_http Samples.world_transport_fails
         Samples.json_loads_promotions)
  = Returns [JObj [("error", JStr "MCP client session failed for filtering")]]
  /\ snd (run_filter_emails Samples.cfg_stdio Samples.world_gmail_fails
            Samples.json_loads_promotions)
     = Returns [JObj [("error", JStr "Failed to call gmail_fetch_emails")]].
Proof.
  split.
  - destruct (filter_emails_returns_list Samples.cfg_http
                Samples.world_transport_fails Samples.json_loads_promotions)
      as (s & l & Hrun & Hsession & _).
    rewrite Hrun. cbn [snd]. f_equal. apply Hsession.
    injection Hrun as <- _. left. cbn. right. left. reflexivity.
  - destruct (filter_emails_returns_list Samples.cfg_stdio
                Samples.world_gmail_fails Samples.json_loads_promotions)
      as (s & l & Hrun & _ & Hcall).
    rewrite Hrun. cbn [snd]. f_equal. apply Hcall.
    injection Hrun as <- _. cbn. do 5 right. left. reflexivity.
Defined.

(** C8 (the tool is not advertised).  When discovery answers a list of
    tools without [gmail_fetch_emails], the call returns the not-found
    marker alone and calls no tool. *)
Theorem filter_emails_tool_not_found :
  forall cfg w jl tools,
    list_tools w = Ok tools ->
    ~ In "gmail_fetch_emails" (map name tools) ->
    In (EvListTools true) (trace (fst (run_filter_emails cfg w jl))) ->
    snd (run_filter_emails cfg w jl)
    = Returns [JObj [("error", JStr "Tool gmail_fetch_emails not found")]]
    /\ tool_calls (trace (fst (run_filter_emails cfg w jl))) = [].
Proof.
  intros cfg w jl tools Htools Hnot Hdisc.
  destruct (run_filter_emails_cases cfg w jl) as (tr & l & Hfil & Hrun).
  rewrite Hfil in *. cbn [fst snd trace] in *.
  assert (Hadv : advertised tools = false).
  { destruct (advertised tools) eqn:E; [| reflexivity].
    apply advertised_In in E. contradiction. }
  inversion Hrun; subst;
    try match goal with
    | H1 : list_tools w = Ok ?t, H2 : advertised ?t = true |- _ =>
        rewrite Htools in H1; injection H1 as <-; congruence
    end;
    try (split; reflexivity);
    exfalso; cbn in Hdisc;
    repeat match goal with
    | H : _ \/ _ |- _ => destruct H
    | H : False |- _ => destruct H
    | H : _ = _ |- _ => discriminate H
    end.
Qed.

Lemma filter_emails_tool_not_found_witness :
  snd (run_filter_emails Samples.cfg_stdio Samples.world_no_gmail
         Samples.json_loads_promotions)
  = Returns [JObj [("error", JStr "Tool gmail_fetch_emails not found")]]
  /\ tool_calls (trace (fst (run_filter_emails Samples.cfg_stdio
                               Samples.world_no_gmail
                               Samples.json_loads_promotions))) = [].
Proof.
  apply (filter_emails_tool_not_found Samples.cfg_stdio Samples.world_no_gmail
           Samples.json_loads_promotions (tools := [Samples.other_tool])).
  - reflexivity.
  - cbn. intros [Heq | []]. discriminate Heq.
  - cbn. do 4 right. left. reflexivity.
Defined.

(** C10 (the fixed invocation).  When discovery answers a list of tools
    with [gmail_fetch_emails] in it, the tool calls of the run are one
    call of [gmail_fetch_emails] with the arguments
    [{"query": "unread", "max_results": 10}], whatever the configuration. *)
Theorem filter_emails_fixed_invocation :
  forall cfg w jl tools,
    list_tools w = Ok tools ->
    In "gmail_fetch_emails" (map name tools) ->
    In (EvListTools true) (trace (fst (run_filter_emails cfg w jl))) ->
    exists ok,
      tool_calls (trace (fst (run_filter_emails cfg w jl)))
      = [EvCallTool "gmail_fetch_emails"
           [("query", JStr "unread"); ("max_results", JNum 10)] ok].
Proof.
  intros cfg w jl tools Htools Hin Hdisc.
  destruct (run_filter_emails_cases cfg w jl) as (tr & l & Hfil & Hrun).
  rewrite Hfil in *. cbn [fst snd trace] in *.
  apply advertised_In in Hin.
  inversion Hrun; subst;
    try match goal with
    | H1 : list_tools w = Ok ?t, H2 : advertised ?t = false |- _ =>
        rewrite Htools in H1; injection H1 as <-; congruence
    end;
    try (eexists; reflexivity);
    exfalso; cbn in Hdisc;
    repeat match goal with
    | H : _ \/ _ |- _ => destruct H
    | H : False |- _ => destruct H
    | H : _ = _ |- _ => discriminate H
    end.
Qed.

Lemma filter_emails_fixed_invocation_witness :
  exists ok,
    tool_calls (trace (fst (run_filter_emails Samples.cfg_http Samples.world_gmail
                              Samples.json_loads_promotions)))
    = [EvCallTool "gmail_fetch_emails"
         [("query", JStr "unread"); ("max_results", JNum 10)] ok].
Proof.
  apply (filter_emails_fixed_invocation Samples.cfg_http Samples.world_gmail
           Samples.json_loads_promotions
           (tools := [Samples.other_tool; Samples.gmail_tool])).
  - reflexivity.
  - cbn. right. left. reflexivity.
  - cbn. do 4 right. left. reflexivity.
Defined.

(** ** Further properties *)

(** *** The tool catalogue (lines 72-87) *)

(** X1.  A discovered tool is declared once, under its own name and
    description, with the entries of its input schema in their order, the
    keys [additionalProperties] and [$schema] left out and every other
    entry kept. *)
Theorem declare_tool_strips_metadata : forall tool,
  exists decl,
    function_declarations (declare_tool tool) = [decl]
    /\ decl_name decl = name tool
    /\ decl_description decl = description tool
    /\ (forall k v,
          In (k, v) (decl_parameters decl)
          <-> In (k, v) (inputSchema tool)
              /\ k <> "additionalProperties" /\ k <> "$schema")
    /\ ((forall k v, In (k, v) (inputSchema tool) ->
             k <> "additionalProperties" /\ k <> "$schema") ->
          decl_parameters decl = inputSchema tool).
Proof.
  intros tool. unfold declare_tool. eexists. split; [reflexivity |].
  cbn [decl_name decl_description decl_parameters].
  split; [reflexivity |]. split; [reflexivity |].
  assert (Hkeep : forall k : string,
            negb (existsb (String.eqb k) schema_metadata) = true
            <-> k <> "additionalProperties" /\ k <> "$schema").
  { intros k. cbn [existsb schema_metadata].
    rewrite orb_false_r, negb_orb, andb_true_iff, !negb_true_iff.
    now rewrite !String.eqb_neq. }
  split.
  - intros k v. rewrite filter_In. cbn [fst]. rewrite Hkeep. tauto.
  - intros Hclean. induction (inputSchema tool) as [|[k v] l IH]; [reflexivity |].
    cbn [filter fst].
    rewrite (proj2 (Hkeep k) (Hclean k v (or_introl eq_refl))).
    f_equal. apply IH. intros k' v' Hin. apply (Hclean k' v'). now right.
Qed.

(** *** The reply of the backend (lines 89-130) *)

(** X2.  When the request to the backend raises, no tool is called and the
    sentinel of line 100 is returned with the history followed by the
    user turn and the note of line 99. *)
Theorem categorize_with_tools_backend_failure :
  forall w jl ch u cp tools s e,
    ch < length (heap s) ->
    generate_content w (deref (heap s) cp) 0 (map declare_tool tools) = Fails e ->
    exists s' r,
      categorize_with_tools w jl ch u cp tools s
      = (s', Return (CatText "unknown_category_error_gemini_api", r))
      /\ deref (heap s') r
         = deref (heap s) ch ++ [u; note_turn "Error calling Gemini."]
      /\ trace s' = trace s
           ++ [EvGenerateContent (deref (heap s) cp) (map declare_tool tools) false].
Proof.
  intros w jl ch u cp tools [h tr] e Hch Hgen. cbn [heap trace] in *.
  unfold categorize_with_tools. unfold_py. rewrite Hgen. cbn [heap trace succeeded].
  do 2 eexists. split; [reflexivity |]. cbn [heap trace]. split; [| reflexivity].
  now heap_norm_with deref_last deref_old.
Qed.

Lemma categorize_with_tools_backend_failure_witness :
  exists s' r,
    categorize_with_tools Cases.backend_down Samples.json_loads_promotions
      0 (user_turn "hello") 1 [Samples.other_tool] Cases.store
    = (s', Return (CatText "unknown_category_error_gemini_api", r))
    /\ deref (heap s') r = [user_turn "hello"; note_turn "Error calling Gemini."].
Proof.
  destruct (@categorize_with_tools_backend_failure Cases.backend_down
              Samples.json_loads_promotions 0 (user_turn "hello") 1
              [Samples.other_tool] Cases.store GoogleAPIError)
    as (s' & r & Hrun & Hd & _).
  - cbn. lia.
  - reflexivity.
  - exists s', r. split; [exact Hrun | exact Hd].
Defined.

(** The state after a function-call reply was recorded and its tool
    answered. *)
Lemma categorize_with_tools_after_call :
  forall w jl ch u cp tools s resp cand cs part ps fc,
    ch < length (heap s) ->
    generate_content w (deref (heap s) cp) 0 (map declare_tool tools) = Ok resp ->
    candidates resp = cand :: cs ->
    content_parts cand = part :: ps ->
    function_call part = Some fc ->
    let updated := deref (heap s) ch ++ [u; mkTurn Model [RawPart part]] in
    let s' ok :=
      mkState (heap s ++ [[u; mkTurn Model [RawPart part]]; updated])
              (trace s
                 ++ [EvGenerateContent (deref (heap s) cp) (map declare_tool tools) true;
                     EvCallTool (fc_name fc) (fc_args fc) ok]) in
    let r := S (length (heap s)) in
    deref (heap (s' true)) r = updated
    /\ categorize_with_tools w jl ch u cp tools s
       = match call_tool w (fc_name fc) (fc_args fc) with
         | Fails _ =>
             (s' false,
              Return (CatText ("error_calling_mcp_tool_" ++ fc_name fc)%string, r))
         | Ok result =>
             (s' true,
              Return
                (match content result with
                 | [] => CatText "error_mcp_result_structure"
                 | p0 :: _ =>
                     match cp_text p0 with
                     | Missing => CatText "error_mcp_result_structure"
                     | Present None =>
                         CatText ("error_calling_mcp_tool_" ++ fc_name fc)%string
                     | Present (Some text) =>
                         match jl text with
                         | Some j => CatData j
                         | None => CatText "error_mcp_json_decode"
                         end
                     end
                 end, r))
         end.
Proof.
  intros w jl ch u cp tools [h tr] resp cand cs part ps fc
    Hch Hgen Hcand Hparts Hfc updated s' r.
  subst updated s' r. cbn [heap trace] in *. split.
  - change (h ++ [?a; ?b]) with (h ++ [a] ++ [b]). rewrite app_assoc.
    replace (S (length h)) with (length (h ++ [[u; mkTurn Model [RawPart part]]]))
      by (rewrite length_app; cbn; lia).
    apply deref_last.
  - unfold categorize_with_tools. unfold_py.
    rewrite Hgen. cbn [heap trace succeeded]. rewrite Hcand, Hparts.
    cbn [heap trace]. rewrite Hfc. cbn [heap trace].
    heap_norm_with deref_last deref_old.
    rewrite <- !app_assoc, length_app, Nat.add_1_r. cbn [app].
    destruct (call_tool w (fc_name fc) (fc_args fc)) as [result|e];
      cbn [heap trace succeeded]; [| reflexivity].
    destruct (content result) as [|p0 rest]; cbn [heap trace]; [reflexivity |].
    destruct (cp_text p0) as [|[text|]]; cbn [heap trace]; try reflexivity.
    destruct (jl text); reflexivity.
Qed.

(** X3.  When the tool answers a text that is not a JSON document, the
    category is the sentinel of line 118, after one call of the tool the
    model asked for; the history ends with the model's part. *)
Theorem categorize_with_tools_json_decode :
  forall w jl ch u cp tools s part rtext fc result p0 rest text,
    ch < length (heap s) ->
    replies_with w tools s cp part rtext ->
    function_call part = Some fc ->
    call_tool w (fc_name fc) (fc_args fc) = Ok result ->
    content result = p0 :: rest ->
    cp_text p0 = Present (Some text) ->
    jl text = None ->
    exists s' r,
      categorize_with_tools w jl ch u cp tools s
      = (s', Return (CatText "error_mcp_json_decode", r))
      /\ deref (heap s') r = deref (heap s) ch ++ [u; mkTurn Model [RawPart part]]
      /\ trace s' = trace s
           ++ [request tools s cp true;
               EvCallTool (fc_name fc) (fc_args fc) true].
Proof.
  intros w jl ch u cp tools s part rtext fc result p0 rest text
    Hch (resp & cand & cs & ps & Hgen & Hcand & Hparts & _) Hfc Hcall Hcontent
    Htext Hj.
  destruct (@categorize_with_tools_after_call w jl ch u cp tools s resp cand cs
              part ps fc Hch Hgen Hcand Hparts Hfc)
    as [Hd Hrun].
  rewrite Hcall, Hcontent, Htext, Hj in Hrun.
  do 2 eexists. split; [exact Hrun |]. split; [exact Hd | reflexivity].
Qed.

Lemma categorize_with_tools_json_decode_witness :
  exists s' r,
    categorize_with_tools Cases.not_json Samples.json_loads_promotions
      0 (user_turn "hello") 1 [Samples.other_tool] Cases.store
    = (s', Return (CatText "error_mcp_json_decode", r)).
Proof.
  destruct (@categorize_with_tools_json_decode Cases.not_json
              Samples.json_loads_promotions 0 (user_turn "hello") 1
              [Samples.other_tool] Cases.store Cases.call_part None
              Samples.test_call
              (mkToolResult [Samples.text_content "This is not JSON"])
              (Samples.text_content "This is not JSON") [] "This is not JSON")
    as (s' & r & Hrun & _).
  - cbn. lia.
  - do 4 eexists. repeat split; reflexivity.
  - reflexivity.
  - reflexivity.
  - reflexivity.
  - reflexivity.
  - reflexivity.
  - exists s', r. exact Hrun.
Defined.

(** X4.  When the tool answers without content, or with a first part that
    has no [text], the category is the sentinel of line 121. *)
Theorem categorize_with_tools_result_structure :
  forall w jl ch u cp tools s part rtext fc result,
    ch < length (heap s) ->
    replies_with w tools s cp part rtext ->
    function_call part = Some fc ->
    call_tool w (fc_name fc) (fc_args fc) = Ok result ->
    content result = []
    \/ (exists p0 rest, content result = p0 :: rest /\ cp_text p0 = Missing) ->
    exists s' r,
      categorize_with_tools w jl ch u cp tools s
      = (s', Return (CatText "error_mcp_result_structure", r))
      /\ deref (heap s') r = deref (heap s) ch ++ [u; mkTurn Model [RawPart part]].
Proof.
  intros w jl ch u cp tools s part rtext fc result
    Hch (resp & cand & cs & ps & Hgen & Hcand & Hparts & _) Hfc Hcall Hshape.
  destruct (@categorize_with_tools_after_call w jl ch u cp tools s resp cand cs
              part ps fc Hch Hgen Hcand Hparts Hfc)
    as [Hd Hrun].
  rewrite Hcall in Hrun.
  destruct Hshape as [Hempty | (p0 & rest & Hcontent & Htext)].
  - rewrite Hempty in Hrun. do 2 eexists. split; [exact Hrun | exact Hd].
  - rewrite Hcontent, Htext in Hrun. do 2 eexists. split; [exact Hrun | exact Hd].
Qed.

Lemma categorize_with_tools_result_structure_witness :
  exists s' r,
    categorize_with_tools Cases.no_content Samples.json_loads_promotions
      0 (user_turn "hello") 1 [Samples.other_tool] Cases.store
    = (s', Return (CatText "error_mcp_result_structure", r)).
Proof.
  destruct (@categorize_with_tools_result_structure Cases.no_content
              Samples.json_loads_promotions 0 (user_turn "hello") 1
              [Samples.other_tool] Cases.store Cases.call_part None
              Samples.test_call (mkToolResult []))
    as (s' & r & Hrun & _).
  - cbn. lia.
  - do 4 eexists. repeat split; reflexivity.
  - reflexivity.
  - reflexivity.
  - left. reflexivity.
  - exists s', r. exact Hrun.
Defined.

(** X5.  When the call of the tool raises, the category is
    [error_calling_mcp_tool_] followed by the tool's name; the same
    sentinel is returned when the tool answers a first part whose [text]
    is [None], for the [TypeError] of [json.loads] reaches the handler of
    line 122. *)
Theorem categorize_with_tools_tool_error :
  forall w jl ch u cp tools s part rtext fc,
    ch < length (heap s) ->
    replies_with w tools s cp part rtext ->
    function_call part = Some fc ->
    (exists e, call_tool w (fc_name fc) (fc_args fc) = Fails e)
    \/ (exists p0 rest,
          call_tool w (fc_name fc) (fc_args fc) = Ok (mkToolResult (p0 :: rest))
          /\ cp_text p0 = Present None) ->
    exists s' r,
      categorize_with_tools w jl ch u cp tools s
      = (s', Return (CatText ("error_calling_mcp_tool_" ++ fc_name fc)%string, r))
      /\ deref (heap s') r = deref (heap s) ch ++ [u; mkTurn Model [RawPart part]].
Proof.
  intros w jl ch u cp tools s part rtext fc
    Hch (resp & cand & cs & ps & Hgen & Hcand & Hparts & _) Hfc Herr.
  destruct (@categorize_with_tools_after_call w jl ch u cp tools s resp cand cs
              part ps fc Hch Hgen Hcand Hparts Hfc)
    as [Hd Hrun].
  destruct Herr as [(e & Hcall) | (p0 & rest & Hcall & Htext)];
    rewrite Hcall in Hrun.
  - do 2 eexists. split; [exact Hrun |].
    cbn [heap] in *. exact Hd.
  - cbn [content] in Hrun. rewrite Htext in Hrun.
    do 2 eexists. split; [exact Hrun | exact Hd].
Qed.

Lemma categorize_with_tools_tool_error_witness :
  exists s' r,
    categorize_with_tools Cases.tool_down Samples.json_loads_promotions
      0 (user_turn "hello") 1 [Samples.other_tool] Cases.store
    = (s', Return (CatText "error_calling_mcp_tool_test_tool_stdio", r)).
Proof.
  destruct (@categorize_with_tools_tool_error Cases.tool_down
              Samples.json_loads_promotions 0 (user_turn "hello") 1
              [Samples.other_tool] Cases.store Cases.call_part None
              Samples.test_call)
    as (s' & r & Hrun & _).
  - cbn. lia.
  - do 4 eexists. repeat split; reflexivity.
  - reflexivity.
  - left. eexists. reflexivity.
  - exists s', r. exact Hrun.
Defined.

(** X6.  When the first part carries no function call and the response
    has no text, or an empty one, the category is the sentinel of line
    130, no tool is called, and the part is still the model turn of the
    history. *)
Theorem categorize_with_tools_no_call_no_text :
  forall w jl ch u cp tools s part rtext,
    ch < length (heap s) ->
    replies_with w tools s cp part rtext ->
    function_call part = None ->
    rtext = None \/ rtext = Some "" ->
    exists s' r,
      categorize_with_tools w jl ch u cp tools s
      = (s', Return (CatText "unknown_no_function_call_or_text", r))
      /\ deref (heap s') r = deref (heap s) ch ++ [u; mkTurn Model [RawPart part]]
      /\ trace s' = trace s ++ [request tools s cp true].
Proof.
  intros w jl ch u cp tools [h tr] part rtext
    Hch (resp & cand & cs & ps & Hgen & Hcand & Hparts & Hrtext) Hfc Hnone.
  cbn [heap trace] in *.
  unfold categorize_with_tools, request. unfold_py.
  rewrite Hgen. cbn [heap trace succeeded]. rewrite Hcand, Hparts.
  cbn [heap trace]. rewrite Hfc, Hrtext.
  assert (Hd : deref ((h ++ [[u; mkTurn Model [RawPart part]]])
                        ++ [deref (h ++ [[u; mkTurn Model [RawPart part]]]) ch
                            ++ deref (h ++ [[u; mkTurn Model [RawPart part]]])
                                 (length h)])
                 (length (h ++ [[u; mkTurn Model [RawPart part]]]))
               = deref h ch ++ [u; mkTurn Model [RawPart part]])
    by now heap_norm_with deref_last deref_old.
  destruct Hnone as [-> | ->]; cbn [truthy];
    (do 2 eexists; split; [reflexivity |]; cbn [heap trace];
     split; [exact Hd | reflexivity]).
Qed.

Lemma categorize_with_tools_no_call_no_text_witness :
  exists s' r,
    categorize_with_tools Cases.silent Samples.json_loads_promotions
      0 (user_turn "hello") 1 [Samples.other_tool] Cases.store
    = (s', Return (CatText "unknown_no_function_call_or_text", r)).
Proof.
  destruct (@categorize_with_tools_no_call_no_text Cases.silent
              Samples.json_loads_promotions 0 (user_turn "hello") 1
              [Samples.other_tool] Cases.store (mkModelPart None None) None)
    as (s' & r & Hrun & _).
  - cbn. lia.
  - do 4 eexists. repeat split; reflexivity.
  - reflexivity.
  - left. reflexivity.
  - exists s', r. exact Hrun.
Defined.

(** X7.  When the response has no candidate, or a first candidate without
    parts, line 102 raises [IndexError] after the one request: nothing is
    returned from lines 72-130, no list is created and no tool is
    called. *)
Theorem categorize_with_tools_no_candidate :
  forall w jl ch u cp tools s resp,
    generate_content w (deref (heap s) cp) 0 (map declare_tool tools) = Ok resp ->
    candidates resp = []
    \/ (exists cand cs, candidates resp = cand :: cs /\ content_parts cand = []) ->
    categorize_with_tools w jl ch u cp tools s
    = (mkState (heap s) (trace s ++ [request tools s cp true]), Raise IndexError).
Proof.
  intros w jl ch u cp tools [h tr] resp Hgen Hshape. cbn [heap trace] in *.
  unfold categorize_with_tools, request. unfold_py.
  rewrite Hgen. cbn [heap trace succeeded].
  destruct Hshape as [-> | (cand & cs & -> & Hparts)]; [reflexivity |].
  cbn [heap trace]. now rewrite Hparts.
Qed.

Lemma categorize_with_tools_no_candidate_witness :
  snd (categorize_with_tools Cases.no_candidate Samples.json_loads_promotions
         0 (user_turn "hello") 1 [Samples.other_tool] Cases.store)
  = Raise IndexError.
Proof.
  rewrite (@categorize_with_tools_no_candidate Cases.no_candidate
             Samples.json_loads_promotions 0 (user_turn "hello") 1
             [Samples.other_tool] Cases.store (mkResponse [] None)).
  - reflexivity.
  - reflexivity.
  - left. reflexivity.
Defined.

(** X8.  Lines 72-130 ask the backend at most once and call at most one
    tool.  When the backend answers the request of line 90 and the first
    part of the reply carries a function call, the run is that request
    followed by one call of the tool the part names, with the part's
    arguments; when the first part carries none, the run is the request
    alone. *)
Theorem categorize_with_tools_requests :
  forall w jl ch u cp tools s,
  exists new,
    trace (fst (categorize_with_tools w jl ch u cp tools s)) = trace s ++ new
    /\ (length (backend_calls new) <= 1)%nat
    /\ (length (tool_calls new) <= 1)%nat
    /\ (forall part rtext,
          replies_with w tools s cp part rtext ->
          match function_call part with
          | Some fc =>
              exists ok,
                new = [request tools s cp true;
                       EvCallTool (fc_name fc) (fc_args fc) ok]
          | None => new = [request tools s cp true]
          end).
Proof.
  intros w jl ch u cp tools [h tr].
  assert (Hshape :
    (exists ok,
       trace (fst (categorize_with_tools w jl ch u cp tools (mkState h tr)))
       = tr ++ [request tools (mkState h tr) cp ok]
       /\ forall part rtext,
            replies_with w tools (mkState h tr) cp part rtext ->
            ok = true /\ function_call part = None)
    \/ (exists fc ok,
          trace (fst (categorize_with_tools w jl ch u cp tools (mkState h tr)))
          = tr ++ [request tools (mkState h tr) cp true;
                   EvCallTool (fc_name fc) (fc_args fc) ok]
          /\ forall part' rtext,
               replies_with w tools (mkState h tr) cp part' rtext ->
               function_call part' = Some fc)).
  { unfold categorize_with_tools, request, replies_with. unfold_py.
    destruct (generate_content w (deref h cp) 0 (map declare_tool tools))
      as [resp|e] eqn:Hgen; cbn [heap trace succeeded fst].
    2:{ left. eexists. split; [reflexivity |].
        intros part rtext (resp0 & cand0 & cs0 & ps0 & Hg & _). discriminate Hg. }
    destruct (candidates resp) as [|cand cs] eqn:Hcand; cbn [heap trace fst].
    { left. eexists. split; [reflexivity |].
      intros part rtext (resp0 & cand0 & cs0 & ps0 & Hg & Hc & _).
      injection Hg as <-. rewrite Hcand in Hc. discriminate Hc. }
    destruct (content_parts cand) as [|part ps] eqn:Hparts; cbn [heap trace fst].
    { left. eexists. split; [reflexivity |].
      intros part rtext (resp0 & cand0 & cs0 & ps0 & Hg & Hc & Hp & _).
      injection Hg as <-. rewrite Hcand in Hc. injection Hc as <- <-.
      rewrite Hparts in Hp. discriminate Hp. }
    assert (Hsame : forall part' rtext,
              (exists resp0 cand0 cs0 ps0,
                 Ok resp = Ok resp0 /\ candidates resp0 = cand0 :: cs0
                 /\ content_parts cand0 = part' :: ps0
                 /\ response_text resp0 = rtext) -> part' = part).
    { intros part' rtext (resp0 & cand0 & cs0 & ps0 & Hg & Hc & Hp & _).
      injection Hg as <-. rewrite Hcand in Hc. injection Hc as <- <-.
      rewrite Hparts in Hp. now injection Hp as <- <-. }
    destruct (function_call part) as [fc|] eqn:Hfc; cbn [heap trace fst].
    - right. exists fc.
      destruct (call_tool w (fc_name fc) (fc_args fc)) as [result|e];
        cbn [heap trace succeeded fst].
      2:{ eexists. split; [now rewrite <- app_assoc |].
          intros part' rtext Hrep. now rewrite (Hsame _ _ Hrep). }
      exists true. split.
      2:{ intros part' rtext Hrep. now rewrite (Hsame _ _ Hrep). }
      destruct (content result) as [|p0 rest];
        [cbn [is_JSONDecodeError is_IndexError_or_AttributeError heap trace fst];
         now rewrite <- app_assoc |].
      destruct (cp_text p0) as [|[text|]];
        try (cbn [is_JSONDecodeError is_IndexError_or_AttributeError heap trace fst];
             now rewrite <- app_assoc).
      destruct (jl text);
        cbn [is_JSONDecodeError is_IndexError_or_AttributeError heap trace fst];
        now rewrite <- app_assoc.
    - left. exists true. split.
      + destruct (response_text resp) as [text|]; [destruct (truthy (Some text)) |];
          reflexivity.
      + intros part' rtext Hrep. rewrite (Hsame _ _ Hrep). auto. }
  cbn [trace].
  destruct Hshape as [(ok & Htr & Hrep) | (fc & ok & Htr & Hrep)].
  - exists [request tools (mkState h tr) cp ok].
    split; [exact Htr |]. split; [cbn; lia |]. split; [cbn; lia |].
    intros part rtext Hr. destruct (Hrep _ _ Hr) as [-> ->]. reflexivity.
  - exists [request tools (mkState h tr) cp true;
            EvCallTool (fc_name fc) (fc_args fc) ok].
    split; [exact Htr |]. split; [cbn; lia |]. split; [cbn; lia |].
    intros part' rtext Hr. rewrite (Hrep _ _ Hr). exists ok. reflexivity.
Qed.

Lemma categorize_with_tools_requests_witness :
  exists ok,
    trace (fst (categorize_with_tools Cases.not_json
                  Samples.json_loads_promotions 0 (user_turn "hello") 1
                  [Samples.other_tool] Cases.store))
    = [request [Samples.other_tool] Cases.store 1 true;
       EvCallTool (fc_name Samples.test_call) (fc_args Samples.test_call) ok].
Proof.
  destruct (categorize_with_tools_requests Cases.not_json
              Samples.json_loads_promotions 0 (user_turn "hello") 1
              [Samples.other_tool] Cases.store)
    as (new & Htr & _ & _ & Hrep).
  destruct (Hrep Cases.call_part None) as (ok & Hnew).
  { exists (Cases.reply Cases.call_part None),
           (mkCandidate [Cases.call_part]), [], [].
    repeat split. }
  exists ok. rewrite Htr, Hnew. reflexivity.
Defined.

(** *** The content of the tool's answer (lines 172-189) *)

Lemma classify_content_step : forall jl part rest acc s,
  (exists e, classify_content jl (part :: rest) acc s = (s, Raise e)
             /\ unreadable part)
  \/ (exists record,
        classify_content jl (part :: rest) acc s
        = classify_content jl rest (acc ++ [record]) s
        /\ ~ unreadable part
        /\ (forall text, has_text part text -> record = text_record jl text)).
Proof.
  intros jl part rest acc s. cbn [classify_content]. unfold_py.
  unfold unreadable, has_text, text_record.
  destruct (cp_text part) as [|text] eqn:Ht.
  { left. eexists. split; [reflexivity | now left]. }
  destruct (truthy text) eqn:Htr.
  - destruct text as [t|]; [| discriminate].
    right.
    assert (Hgood : ~ (Present (Some t) = Missing
                       \/ exists v, Present (Some t) = Present v
                                    /\ truthy v = false
                                    /\ cp_tool_code part = Missing)).
    { intros [Hm | (v & Hv & Hf & _)]; [discriminate |].
      injection Hv as <-. congruence. }
    destruct (jl t) as [j|] eqn:Hj; cbn [select_clause is_JSONDecodeError].
    + exists j. split; [reflexivity |]. split; [exact Hgood |].
      intros text' [Heq _]. injection Heq as <-. now rewrite Hj.
    + eexists. split; [reflexivity |]. split; [exact Hgood |].
      intros text' [Heq _]. injection Heq as <-. now rewrite Hj.
  - destruct (cp_tool_code part) as [|code] eqn:Hc.
    { left. eexists. split; [reflexivity |]. right. eauto. }
    right.
    assert (Hgood : ~ (Present text = Missing
                       \/ exists v, Present text = Present v
                                    /\ truthy v = false
                                    /\ Present code = Missing)).
    { intros [Hm | (v & _ & _ & Hmc)]; discriminate. }
    assert (Hnone : forall text', ~ (Present text = Present (Some text')
                                     /\ text' <> "")).
    { intros text' [Heq Hne]. injection Heq as ->.
      destruct text'; [now destruct Hne | discriminate]. }
    destruct (truthy code).
    + eexists. split; [reflexivity |]. split; [exact Hgood |].
      intros text' Hh. now destruct (Hnone text').
    + eexists. split; [reflexivity |]. split; [exact Hgood |].
      intros text' Hh. now destruct (Hnone text').
Qed.

Lemma classify_content_unreadable : forall jl parts acc s,
  Exists unreadable parts ->
  exists e, classify_content jl parts acc s = (s, Raise e).
Proof.
  intros jl parts acc s Hex. revert acc.
  induction Hex as [part rest Hbad | part rest _ IH]; intros acc.
  - destruct (classify_content_step jl part rest acc s)
      as [(e & He & _) | (record & _ & Hgood & _)]; [eauto | contradiction].
  - destruct (classify_content_step jl part rest acc s)
      as [(e & He & _) | (record & Hstep & _)]; [eauto |].
    rewrite Hstep. apply IH.
Qed.

(** The runs of [filter_emails] in which the tool has answered. *)
Lemma FetchRun_answered : forall w jl ctx tr l result,
  FetchRun w jl ctx tr l ->
  In (fetch_call true) tr ->
  call_tool w gmail_tool_name dummy_args = Ok result ->
  (exists s, classify_content jl (content result) [] s = (s, Normal l))
  \/ (l = call_failed
      /\ exists s e, classify_content jl (content result) [] s = (s, Raise e)).
Proof.
  intros w jl ctx tr l result Hrun Hin Hcall.
  destruct Hrun; cbn in Hin;
    repeat match goal with
    | H : _ \/ _ |- _ => destruct H
    | H : False |- _ => destruct H
    | H : _ = fetch_call true |- _ => discriminate H
    end;
    match goal with
    | H : call_tool w gmail_tool_name dummy_args = _ |- _ =>
        rewrite Hcall in H; try discriminate H; injection H as <-
    end; eauto.
Qed.

(** X10.  One part the loop cannot read (no [text] attribute, or a false
    [text] and no [tool_code] attribute) makes [filter_emails] return the
    failed-call marker alone: the records gathered from the other parts
    are dropped. *)
Theorem filter_emails_unreadable_part : forall cfg w jl result,
  call_tool w gmail_tool_name dummy_args = Ok result ->
  Exists unreadable (content result) ->
  In (fetch_call true) (trace (fst (run_filter_emails cfg w jl))) ->
  snd (run_filter_emails cfg w jl)
  = Returns [JObj [("error", JStr "Failed to call gmail_fetch_emails")]].
Proof.
  intros cfg w jl result Hcall Hbad Hin.
  destruct (run_filter_emails_cases cfg w jl) as (tr & l & Hfil & Hrun).
  rewrite Hfil in *. cbn [fst snd trace] in *.
  destruct Hin as [Hin | Hin]; [discriminate |].
  destruct (FetchRun_answered Hrun Hin Hcall)
    as [(s & Hok) | (-> & _)]; [| reflexivity].
  destruct (classify_content_unreadable jl [] s Hbad) as (e & He).
  rewrite He in Hok. discriminate.
Qed.

Lemma filter_emails_unreadable_part_witness :
  snd (run_filter_emails Samples.cfg_http Cases.world_text_and_image
         Samples.json_loads_promotions)
  = Returns [JObj [("error", JStr "Failed to call gmail_fetch_emails")]].
Proof.
  apply (@filter_emails_unreadable_part Samples.cfg_http
           Cases.world_text_and_image Samples.json_loads_promotions
           (mkToolResult [Samples.text_content Samples.promotions_text;
                          Cases.image_content])).
  - reflexivity.
  - apply Exists_cons_tl, Exists_cons_hd. left. reflexivity.
  - cbn. do 5 right. left. reflexivity.
Defined.

(** X12.  When tool discovery fails in [filter_emails], the list returned
    is the session-failure marker alone and no tool is called. *)
Theorem filter_emails_discovery_failure : forall cfg w jl,
  In (EvListTools false) (trace (fst (run_filter_emails cfg w jl))) ->
  snd (run_filter_emails cfg w jl)
  = Returns [JObj [("error", JStr "MCP client session failed for filtering")]]
  /\ tool_calls (trace (fst (run_filter_emails cfg w jl))) = [].
Proof.
  intros cfg w jl Hin.
  destruct (run_filter_emails_cases cfg w jl) as (tr & l & Hfil & Hrun).
  rewrite Hfil in *. cbn [fst snd trace] in *.
  destruct Hrun; cbn in Hin;
    repeat match goal with
    | H : _ \/ _ |- _ => destruct H
    | H : False |- _ => destruct H
    | H : _ = EvListTools false |- _ => discriminate H
    end.
  split; reflexivity.
Qed.

Lemma filter_emails_discovery_failure_witness :
  snd (run_filter_emails Samples.cfg_stdio Samples.world_discovery_fails
         Samples.json_loads_promotions)
  = Returns [JObj [("error", JStr "MCP client session failed for filtering")]].
Proof.
  apply (@filter_emails_discovery_failure Samples.cfg_stdio
           Samples.world_discovery_fails Samples.json_loads_promotions).
  cbn. do 4 right. left. reflexivity.
Defined.

(** *** Release of the session and the transport *)

(** X13.  In every run of either coroutine, a transport that was entered
    is released last, the session entered on it is released just before,
    and nothing is released that was not entered: on success, on every
    failure, and when the call returns from inside the blocks. *)
Theorem sessions_released : forall cfg w jl email_body history h,
  released (trace (fst (run_categorize_email cfg w jl email_body history h)))
  /\ released (trace (fst (run_filter_emails cfg w jl))).
Proof.
  intros cfg w jl email_body history h. split.
  - rewrite run_categorize_email_eq.
    destruct (json_serializable (history_value h history)); cbn [fst trace].
    + unfold categorize_session_trace.
      destruct (transport_enter w (categorize_client_context cfg));
        [| solve_released].
      destruct (session_enter w); [| solve_released].
      destruct (initialize w); [| solve_released].
      destruct (succeeded (list_tools w)); solve_released.
    + solve_released.
  - destruct (run_filter_emails_cases cfg w jl) as (tr & l & Hfil & Hrun).
    rewrite Hfil. cbn [fst trace].
    destruct Hrun; unfold fetch_call; solve_released.
Qed.

(** *** categorize_email from any state *)

Lemma bind_normal : forall R A B (m : M R A) (k : A -> M R B) s s1 a,
  m s = (s1, Normal a) -> bind m k s = k a s1.
Proof. intros R A B m k s s1 a Hm. unfold bind. now rewrite Hm. Qed.

(** [run_categorize_email_eq] for a call made in the middle of a run. *)
Lemma categorize_email_from : forall cfg w jl email_body history s,
  let H := history_value (heap s) history in
  let u := user_turn email_body in
  let h1 := heap s ++ or_empty_cells H ++ [H; [u]; H ++ [u]] in
  categorize_email cfg w jl email_body history s =
  if json_serializable H then
    (mkState (h1 ++ [[u; session_note]; H ++ [u; session_note]])
             (trace s ++ EvClient (categorize_client_context cfg)
                :: categorize_session_trace w (categorize_client_context cfg)),
     Return (session_sentinel, S (length h1)))
  else (mkState h1 (trace s), Raise TypeError).
Proof.
  intros cfg w jl email_body history [h tr] H u h1. cbn [heap trace] in *.
  unfold categorize_email.
  destruct (or_empty_run (Category * loc) history h tr) as (hh & Hor & Hhh).
  erewrite bind_normal; [| exact Hor].
  change (history_value h history) with H in Hor, Hhh |- *.
  remember (h ++ or_empty_cells H) as h0 eqn:Hh0.
  unfold_py. heap_norm_with deref_last deref_old. rewrite Hhh.
  pose proof (json_serializable_user H email_body) as Hj.
  fold u in Hj. fold u. rewrite Hj. clear Hj.
  assert (Hh1 : ((h0 ++ [H]) ++ [[u]]) ++ [H ++ [u]] = h1).
  { unfold h1. rewrite Hh0. now rewrite <- !app_assoc. }
  rewrite Hh1.
  destruct (json_serializable H); [| reflexivity].
  rewrite categorize_guarded_run.
  2:{ cbn [heap]. rewrite <- Hh1, !length_app. cbn. lia. }
  cbn [heap trace].
  replace (deref h1 (length h0)) with H.
  2:{ rewrite <- Hh1. now heap_norm_with deref_last deref_old. }
  now rewrite <- app_assoc.
Qed.

Lemma json_serializable_answer : forall H email_body,
  json_serializable H = true ->
  json_serializable (H ++ [user_turn email_body; session_note]) = true.
Proof.
  intros H email_body HH. unfold json_serializable in *.
  rewrite forallb_app, HH. reflexivity.
Qed.

Lemma deref_second_last : forall h (a b : list Turn),
  deref (h ++ [a; b]) (S (length h)) = b.
Proof.
  intros h a b. change (h ++ [a; b]) with (h ++ [a] ++ [b]). rewrite app_assoc.
  replace (S (length h)) with (length (h ++ [a]))
    by (rewrite length_app; cbn; lia).
  apply deref_last.
Qed.

(** *** main *)

Lemma io_bind_ext : forall A B (m : IO A) (k k' : A -> IO B) t,
  (forall a t1, k a t1 = k' a t1) -> io_bind m k t = io_bind m k' t.
Proof.
  intros A B m k k' t Hk. unfold io_bind.
  destruct (m t) as [t1 [a | r | e]]; [apply Hk | reflexivity | reflexivity].
Qed.

(** One call of [categorize_email] made by [main] on a history of text
    turns: it answers the session sentinel and hands back such a history. *)
Lemma round_call : forall cfg w jl email_body (ch : loc) t,
  ch < length (heap (machine t)) ->
  json_serializable (deref (heap (machine t)) ch) = true ->
  exists s1 r,
    await_call (categorize_email cfg w jl email_body (Some ch)) t
    = (mkSession s1 (console t), Normal (Some (session_sentinel, r)))
    /\ r < length (heap s1)
    /\ json_serializable (deref (heap s1) r) = true
    /\ clients_built (trace s1)
       = clients_built (trace (machine t)) ++ [EvClient (categorize_client_context cfg)]
    /\ backend_calls (trace s1) = backend_calls (trace (machine t))
    /\ tool_calls (trace s1) = tool_calls (trace (machine t)).
Proof.
  intros cfg w jl email_body ch [s out] Hch Hj. cbn [machine console] in *.
  unfold await_call. cbn [machine console].
  rewrite categorize_email_from. cbn [history_value]. rewrite Hj.
  do 2 eexists. split; [reflexivity |]. cbn [heap trace].
  destruct (categorize_session_trace_no_backend w (categorize_client_context cfg))
    as (Hb & Ht & Hc).
  unfold clients_built, backend_calls, tool_calls in *.
  rewrite !filter_app. cbn [filter is_client is_generate_content is_call_tool].
  rewrite Hb, Ht, Hc, !app_nil_r.
  repeat split.
  - rewrite !length_app. cbn. lia.
  - rewrite deref_second_last. now apply json_serializable_answer.
Qed.

(** The rounds of the loop in closed form. *)
Lemma rounds_run : forall cfg host jl inputs n (ch : loc) t,
  ch < length (heap (machine t)) ->
  json_serializable (deref (heap (machine t)) ch) = true ->
  exists t',
    rounds cfg host jl n inputs ch t
    = (t', if ends_loop inputs then Normal tt else Raise EOFError)
    /\ console t' = console t ++ answers host n (lines_read inputs)
    /\ clients_built (trace (machine t'))
       = clients_built (trace (machine t))
           ++ map (fun _ => EvClient (categorize_client_context cfg))
                  (filter is_categorized (answers host n (lines_read inputs)))
    /\ backend_calls (trace (machine t')) = backend_calls (trace (machine t))
    /\ tool_calls (trace (machine t')) = tool_calls (trace (machine t)).
Proof.
  intros cfg host jl inputs.
  induction inputs as [|[s|] rest IH]; intros n ch t Hch Hj.
  - exists t. cbn. rewrite !app_nil_r. auto.
  - cbn [rounds ends_loop lines_read].
    change (existsb (String.eqb (py_lower s)) exit_commands) with (is_exit s).
    change (String.eqb (py_strip s) "") with (is_blank s).
    destruct (is_exit s) eqn:Hexit.
    { exists t. cbn. rewrite !app_nil_r. auto. }
    cbn [orb answers]. unfold answer.
    destruct (is_blank s) eqn:Hblank.
    { unfold_io.
      destruct (IH (S n) ch (mkSession (machine t) (console t ++ [PleaseEnter])) Hch Hj)
        as (t' & Hrun & Hout & Hrest).
      exists t'. split; [exact Hrun |]. cbn [machine console] in *.
      split; [now rewrite Hout, <- app_assoc | exact Hrest]. }
    destruct (truthy (GEMINI_API_KEY host)) eqn:Hkey; cbn [negb].
    2:{ unfold_io.
        destruct (IH (S n) ch (mkSession (machine t) (console t ++ [KeyNotConfigured]))
                    Hch Hj)
          as (t' & Hrun & Hout & Hrest).
        exists t'. split; [exact Hrun |]. cbn [machine console] in *.
        split; [now rewrite Hout, <- app_assoc | exact Hrest]. }
    destruct (configure host n) as [[]|e] eqn:Hconf; cbn [succeeded].
    2:{ unfold_io.
        destruct (IH (S n) ch (mkSession (machine t) (console t ++ [ConfigureFailed]))
                    Hch Hj)
          as (t' & Hrun & Hout & Hrest).
        exists t'. split; [exact Hrun |]. cbn [machine console] in *.
        split; [now rewrite Hout, <- app_assoc | exact Hrest]. }
    destruct (round_call cfg (round_world host n) jl s t Hch Hj)
      as (s1 & r & Hcall & Hr & Hjr & Hc & Hb & Ht).
    unfold io_bind at 1. unfold io_try_except at 1.
    unfold io_bind at 1. unfold outcome_io.
    cbn [io_ret].
    unfold io_bind at 1. unfold io_try_except at 1.
    unfold io_bind at 1. rewrite Hcall.
    cbn [unpack]. unfold_io.
    destruct (IH (S n) r
                (mkSession s1 (console t ++ [Categorized session_sentinel]))
                Hr Hjr)
      as (t' & Hrun & Hout & Hc' & Hb' & Ht').
    exists t'. split; [exact Hrun |]. cbn [machine console] in *.
    split; [now rewrite Hout, <- app_assoc |].
    cbn [filter is_categorized map].
    split; [| split].
    + rewrite Hc', Hc, <- app_assoc. reflexivity.
    + now rewrite Hb', Hb.
    + now rewrite Ht', Ht.
  - exists t. cbn. rewrite !app_nil_r. auto.
Qed.

Lemma call_returns_inv : forall R (body : M R unit) s s1 r,
  call body s = (s1, Returns r) -> body s = (s1, Return r).
Proof.
  intros R body s s1 r Hcall. unfold call in Hcall.
  destruct (body s) as [s' [a | r' | e]]; now inversion Hcall.
Qed.

Lemma FetchRun_asks_no_backend : forall w jl ctx tr l,
  FetchRun w jl ctx tr l -> backend_calls tr = [].
Proof. intros w jl ctx tr l Hrun. destruct Hrun; reflexivity. Qed.

Lemma answers_answered : forall host n lines,
  answered host n lines (answers host n lines).
Proof.
  intros host n lines. revert n.
  induction lines as [|s rest IH]; intros n; cbn [answers answered]; [exact I |].
  split; [| apply IH].
  unfold answers_line, answer. destruct (is_blank s); [reflexivity |].
  destruct (negb (truthy (GEMINI_API_KEY host))); [reflexivity |].
  destruct (succeeded (configure host n)); [| reflexivity].
  left. eexists. reflexivity.
Qed.

(** A run of [main] in closed form. *)
Lemma run_main_eq : forall cfg host jl inputs,
  exists t' tr l,
    run_main cfg host jl inputs
    = (t', if ends_loop inputs then Normal tt else Raise EOFError)
    /\ FetchRun (fetch_world host) jl (filter_client_context cfg) tr l
    /\ console t' = answers host 0 (lines_read inputs)
    /\ clients_built (trace (machine t'))
       = EvClient (filter_client_context cfg)
           :: map (fun _ => EvClient (categorize_client_context cfg))
                  (filter is_categorized (answers host 0 (lines_read inputs)))
    /\ backend_calls (trace (machine t')) = []
    /\ tool_calls (trace (machine t')) = tool_calls tr.
Proof.
  intros cfg host jl inputs.
  destruct (run_filter_emails_cases cfg (fetch_world host) jl)
    as (tr & l & Hfil & Hrun).
  apply call_returns_inv in Hfil.
  set (t0 := mkSession (mkState [[]] (EvClient (filter_client_context cfg) :: tr)) []).
  assert (Hstart : run_main cfg host jl inputs = rounds cfg host jl 0 inputs 0 t0).
  { unfold run_main, main.
    unfold io_bind at 1.
    assert (Hconf : (if truthy (GEMINI_API_KEY host)
                     then io_try_except (outcome_io (configure_at_start host))
                            [(is_Exception, fun _ : Exn => io_ret tt)]
                     else io_ret tt) (mkSession (mkState [] []) [])
                    = (mkSession (mkState [] []) [], Normal tt)).
    { destruct (truthy (GEMINI_API_KEY host)); [| reflexivity].
      unfold_io. destruct (configure_at_start host) as [[]|e]; reflexivity. }
    rewrite Hconf.
    unfold io_bind at 1. unfold await_call. cbn [machine console].
    rewrite Hfil. reflexivity. }
  destruct (@rounds_run cfg host jl inputs 0 0 t0) as (t' & Hrounds & Hout & Hc & Hb & Ht).
  { cbn. lia. }
  { reflexivity. }
  destruct (FetchRun_builds_no_client Hrun) as (Hnc & _).
  pose proof (FetchRun_asks_no_backend Hrun) as Hnb.
  exists t', tr, l. rewrite Hstart. split; [exact Hrounds |].
  split; [exact Hrun |]. cbn [machine console trace t0] in *.
  split; [exact Hout |].
  unfold clients_built, backend_calls, tool_calls in *.
  cbn [filter is_client is_generate_content is_call_tool] in *.
  rewrite Hnc in Hc. rewrite Hnb in Hb. auto.
Qed.

Lemma map_const_repeat : forall A B (b : B) (l : list A),
  map (fun _ => b) l = repeat b (length l).
Proof. intros A B b l. induction l; cbn; [reflexivity | now f_equal]. Qed.

(** X15.  Over a console input of lines, [main] prints one message for
    each line read before the exit command, in the order of the lines:
    the request for text for a blank line; else the missing-key message
    when no key is set; else the configuration message when
    [genai.configure] raises in that round; else the category, or the
    message of the handler of line 260. *)
Theorem main_console : forall cfg host jl inputs,
  no_interrupt inputs = true ->
  answered host 0 (lines_read inputs)
    (console (fst (run_main cfg host jl inputs))).
Proof.
  intros cfg host jl inputs _.
  destruct (run_main_eq cfg host jl inputs) as (t' & tr & l & Hrun & _ & Hout & _).
  rewrite Hrun. cbn [fst]. rewrite Hout. apply answers_answered.
Qed.

Lemma main_console_witness :
  answered Console.host_with_key 0
    ["first email"; "   "; "second email"; "third email"]
    (console (fst (run_main Samples.cfg_stdio Console.host_with_key
                     Samples.json_loads_promotions Console.session_inputs))).
Proof.
  apply (@main_console Samples.cfg_stdio Console.host_with_key
           Samples.json_loads_promotions Console.session_inputs).
  reflexivity.
Defined.

(** X16.  Over a console input of lines, [main] builds one client for
    its call of [filter_emails] and one more for each category it prints,
    each the client its coroutine selects: every categorisation opens a
    session of its own. *)
Theorem main_sessions : forall cfg host jl inputs,
  no_interrupt inputs = true ->
  let run := fst (run_main cfg host jl inputs) in
  clients_built (trace (machine run))
  = EvClient (filter_client_context cfg)
      :: repeat (EvClient (categorize_client_context cfg))
                (length (filter is_categorized (console run))).
Proof.
  intros cfg host jl inputs _ run. subst run.
  destruct (run_main_eq cfg host jl inputs)
    as (t' & tr & l & Hrun & _ & Hout & Hc & _).
  rewrite Hrun. cbn [fst]. rewrite Hc, Hout, map_const_repeat. reflexivity.
Qed.

Lemma main_sessions_witness :
  length (clients_built
            (trace (machine (fst (run_main Samples.cfg_stdio Console.host_with_key
                                    Samples.json_loads_promotions
                                    Console.session_inputs)))))
  = 3.
Proof.
  rewrite (@main_sessions Samples.cfg_stdio Console.host_with_key
             Samples.json_loads_promotions Console.session_inputs eq_refl).
  reflexivity.
Defined.

(** X17.  Without a key ([GEMINI_API_KEY] unset or empty) [main] still
    calls [filter_emails], but categorises nothing: the only client built
    is the one of [filter_emails], and every line read gets the request
    for text or the missing-key message. *)
Theorem main_without_key : forall cfg host jl inputs,
  truthy (GEMINI_API_KEY host) = false ->
  let run := fst (run_main cfg host jl inputs) in
  clients_built (trace (machine run)) = [EvClient (filter_client_context cfg)]
  /\ length (console run) = length (lines_read inputs)
  /\ (forall o, In o (console run) -> o = PleaseEnter \/ o = KeyNotConfigured).
Proof.
  intros cfg host jl inputs Hkey run. subst run.
  destruct (run_main_eq cfg host jl inputs)
    as (t' & tr & l & Hrun & _ & Hout & Hc & _).
  rewrite Hrun. cbn [fst]. rewrite Hc, Hout.
  assert (Hall : forall n lines,
            filter is_categorized (answers host n lines) = []
            /\ length (answers host n lines) = length lines
            /\ (forall o, In o (answers host n lines) ->
                  o = PleaseEnter \/ o = KeyNotConfigured)).
  { intros n lines. revert n.
    induction lines as [|s rest IH]; intros n; cbn [answers].
    - repeat split. intros o [].
    - destruct (IH (S n)) as (Hf & Hl & Ho).
      unfold answer. rewrite Hkey. cbn [negb].
      destruct (is_blank s); cbn [filter is_categorized length];
        (split; [exact Hf |]); (split; [now rewrite Hl |]);
        intros o [<- | Hin]; auto. }
  destruct (Hall 0 (lines_read inputs)) as (Hf & Hl & Ho).
  rewrite Hf. auto.
Qed.

Lemma main_without_key_witness :
  clients_built
    (trace (machine (fst (run_main Samples.cfg_http Console.host_without_key
                            Samples.json_loads_promotions Console.session_inputs))))
  = [EvClient (http_client (mkHttp "http://localhost:8080/test_mcp_http"))].
Proof.
  destruct (@main_without_key Samples.cfg_http Console.host_without_key
              Samples.json_loads_promotions Console.session_inputs eq_refl)
    as (Hclients & _).
  exact Hclients.
Defined.

Lemma rounds_stop_at_exit : forall cfg host jl cmd post post' pre n ch t,
  is_exit cmd = true ->
  rounds cfg host jl n (pre ++ Line cmd :: post) ch t
  = rounds cfg host jl n (pre ++ Line cmd :: post') ch t.
Proof.
  intros cfg host jl cmd post post' pre.
  induction pre as [|[s|] pre IH]; intros n ch t Hexit.
  - cbn [app rounds]. unfold is_exit in Hexit. now rewrite Hexit.
  - cbn [app rounds].
    destruct (existsb (String.eqb (py_lower s)) exit_commands); [reflexivity |].
    destruct (String.eqb (py_strip s) "").
    { apply io_bind_ext. intros _ t1. now apply IH. }
    destruct (negb (truthy (GEMINI_API_KEY host))).
    { apply io_bind_ext. intros _ t1. now apply IH. }
    apply io_bind_ext. intros [|] t1.
    + apply io_bind_ext. intros ch' t2. now apply IH.
    + now apply IH.
  - reflexivity.
Qed.

Lemma ends_loop_exit : forall pre cmd post,
  is_exit cmd = true -> ends_loop (pre ++ Line cmd :: post) = true.
Proof.
  intros pre cmd post Hexit.
  induction pre as [|[s|] pre IH]; cbn [app ends_loop].
  - now rewrite Hexit.
  - rewrite IH. apply orb_true_r.
  - reflexivity.
Qed.

(** X18.  A line that reads [quit] or [exit] in any mix of cases ends
    [main] normally, and nothing that follows it on the input has any
    effect: the run is the one on the input cut after that line. *)
Theorem main_stops_at_exit : forall cfg host jl pre cmd post,
  is_exit cmd = true ->
  run_main cfg host jl (pre ++ Line cmd :: post)
  = run_main cfg host jl (pre ++ [Line cmd])
  /\ snd (run_main cfg host jl (pre ++ Line cmd :: post)) = Normal tt.
Proof.
  intros cfg host jl pre cmd post Hexit. split.
  - unfold run_main, main.
    apply io_bind_ext. intros _ t1.
    apply io_bind_ext. intros _ t2.
    apply io_bind_ext. intros ch t3.
    now apply rounds_stop_at_exit.
  - destruct (run_main_eq cfg host jl (pre ++ Line cmd :: post))
      as (t' & tr & l & Hrun & _).
    rewrite Hrun. cbn [snd]. now rewrite ends_loop_exit.
Qed.

Lemma main_stops_at_exit_witness :
  run_main Samples.cfg_stdio Console.host_with_key Samples.json_loads_promotions
    ([Line "first email"] ++ Line "QuIt" :: [Line "never read"; Interrupt])
  = run_main Samples.cfg_stdio Console.host_with_key
      Samples.json_loads_promotions ([Line "first email"] ++ [Line "QuIt"]).
Proof.
  destruct (@main_stops_at_exit Samples.cfg_stdio Console.host_with_key
              Samples.json_loads_promotions [Line "first email"] "QuIt"
              [Line "never read"; Interrupt] eq_refl)
    as (Hsame & _).
  exact Hsame.
Defined.

(** X19.  When the console input, lines only, runs out before an exit
    command, [input] raises [EOFError] at line 226; no handler of [main]
    takes it, and it leaves [main] after each of the lines has been
    answered with one message. *)
Theorem main_end_of_input : forall cfg host jl inputs,
  ends_loop inputs = false ->
  snd (run_main cfg host jl inputs) = Raise EOFError
  /\ length (console (fst (run_main cfg host jl inputs))) = length inputs.
Proof.
  intros cfg host jl inputs Hend.
  destruct (run_main_eq cfg host jl inputs) as (t' & tr & l & Hrun & _ & Hout & _).
  rewrite Hrun, Hend. cbn [fst snd]. split; [reflexivity |].
  rewrite Hout.
  assert (Hlen : forall n lines, length (answers host n lines) = length lines).
  { intros n lines. revert n. induction lines; intros n; cbn; [reflexivity |].
    now rewrite IHlines. }
  rewrite Hlen. clear - Hend.
  induction inputs as [|[s|] rest IH]; cbn in *; [reflexivity | | discriminate].
  apply orb_false_iff in Hend. destruct Hend as [-> Hrest].
  cbn. now rewrite IH.
Qed.

Lemma main_end_of_input_witness :
  snd (run_main Samples.cfg_stdio Console.host_with_key
         Samples.json_loads_promotions [Line "first email"; Line "  "])
  = Raise EOFError
  /\ length (console (fst (run_main Samples.cfg_stdio Console.host_with_key
                             Samples.json_loads_promotions
                             [Line "first email"; Line "  "])))
     = 2.
Proof.
  apply (@main_end_of_input Samples.cfg_stdio Console.host_with_key
           Samples.json_loads_promotions [Line "first email"; Line "  "]).
  reflexivity.
Defined.
